(** * Error classification and recovery decision engine

    A shallow embedding of [error_logging/ai_error_recovery.py]
    (classes [ErrorAnalyzer], [AutoRecoveryExecutor] and
    [ErrorAlertManager]), of [NotificationService] and the webhook channel
    of [error_logging/services.py], with the models of
    [error_logging/models.py] that they use, and of
    [error_logging/ai_recovery_middleware.py].

    Conventions of the embedding:
    - Python [float] values are modelled as exact rationals ([Q]). The
      confidence computation is also given on binary64 numbers, and the
      bounds proved on rationals are checked there for every value that the
      analyzer can compute.
    - Python dictionaries with a fixed literal content are [gmap]s and
      [d.get(k, dflt)] is [default dflt (d !! k)].
    - [timezone.now()] is an explicit reading of a clock; [datetime] values
      are kept as they are instead of their [isoformat()] rendering, which is
      injective.
    - Calls to [logger] are not modelled, except that the evaluation of their
      argument may raise. *)

From Stdlib Require Import Ascii QArith Qminmax Lqa Floats.
From stdpp Require Import gmap strings list sorting.

Local Set Warnings "-inexact-float".
Local Open Scope string_scope.
Local Open Scope list_scope.

(** ** Data model *)

(** [class RecoveryStrategy(Enum)] *)
Inductive RecoveryStrategy : Type :=
  | RETRY
  | TIMEOUT_INCREASE
  | CACHE_CLEAR
  | POOL_INCREASE
  | RESOURCE_SCALE
  | CIRCUIT_BREAK
  | FALLBACK
  | QUEUE_PRIORITY
  | REQUEST_THROTTLE
  | SERVICE_RESTART.

(** The [.value] of a member of [RecoveryStrategy]. *)
Definition strategy_value (s : RecoveryStrategy) : string :=
  match s with
  | RETRY => "retry"
  | TIMEOUT_INCREASE => "timeout_increase"
  | CACHE_CLEAR => "cache_clear"
  | POOL_INCREASE => "pool_increase"
  | RESOURCE_SCALE => "resource_scale"
  | CIRCUIT_BREAK => "circuit_break"
  | FALLBACK => "fallback"
  | QUEUE_PRIORITY => "queue_priority"
  | REQUEST_THROTTLE => "request_throttle"
  | SERVICE_RESTART => "service_restart"
  end.

(** [class RecoveryPriority(Enum)] *)
Inductive RecoveryPriority : Type :=
  | CRITICAL
  | HIGH
  | MEDIUM
  | LOW.

(** The [.value] and the [.name] of a member of [RecoveryPriority]. *)
Definition priority_value (p : RecoveryPriority) : Z :=
  match p with CRITICAL => 1 | HIGH => 2 | MEDIUM => 3 | LOW => 4 end.

Definition priority_name (p : RecoveryPriority) : string :=
  match p with
  | CRITICAL => "CRITICAL"
  | HIGH => "HIGH"
  | MEDIUM => "MEDIUM"
  | LOW => "LOW"
  end.

(** The scalar values that occur in parameter and result dictionaries. *)
Inductive PyVal : Type :=
  | PInt (z : Z)
  | PFloat (q : Q)
  | PStr (s : string)
  | PBool (b : bool).

(** A dictionary with string keys written as a literal, in source order. *)
Definition PyDict : Type := list (string * PyVal).

Fixpoint dict_get (d : PyDict) (k : string) (dflt : PyVal) : PyVal :=
  match d with
  | [] => dflt
  | (k', v) :: d' => if String.eqb k' k then v else dict_get d' k dflt
  end.

Definition datetime : Type := Z.

(** The fields of the [ErrorLog] model that the engine reads. *)
Record ErrorLog : Type := mkErrorLog {
  error_id : string;
  service : string;
  severity : string;
  error_type : string;
  message : string;
  timestamp : datetime;
  frequency : Z
}.

Definition with_severity (e : ErrorLog) (sev : string) : ErrorLog :=
  {| error_id := error_id e; service := service e; severity := sev;
     error_type := error_type e; message := message e;
     timestamp := timestamp e; frequency := frequency e |}.

(** [@dataclass class RecoveryAction] *)
Record RecoveryAction : Type := mkRecoveryAction {
  action_id : string;
  strategy : RecoveryStrategy;
  priority : RecoveryPriority;
  ra_service : string;
  ra_error_type : string;
  parameters : PyDict;
  confidence : Q;
  estimated_success_rate : Q;
  created_at : datetime;
  executed : bool;
  execution_result : option PyDict
}.

(** An entry of [analysis['recovery_actions']]. *)
Record ActionData : Type := mkActionData {
  ad_strategy : string;
  ad_priority : string;
  ad_confidence : Q;
  ad_success_rate : Q;
  ad_parameters : PyDict
}.

(** The dictionary returned by [analyze_error]: [None] stands for an absent
    key, so that [{}] is the record with no key at all. *)
Record Analysis : Type := mkAnalysis {
  an_error_id : option string;
  an_error_type : option string;
  an_service : option string;
  an_severity : option string;
  an_timestamp : option datetime;
  an_analysis_timestamp : option datetime;
  an_predicted_recovery_strategies : option (list string);
  an_recovery_actions : option (list ActionData);
  an_ml_confidence : option Q;
  an_pattern_match : option (option string);
  an_recommended_priority : option string
}.

Definition empty_analysis : Analysis :=
  mkAnalysis None None None None None None None None None None None.

(** Decimal rendering of a list index, for [f"{error_id}_{idx}"]. *)
Definition digit_of (n : nat) : string :=
  match n with
  | 0 => "0" | 1 => "1" | 2 => "2" | 3 => "3" | 4 => "4"
  | 5 => "5" | 6 => "6" | 7 => "7" | 8 => "8" | _ => "9"
  end.

Fixpoint str_nat_aux (fuel n : nat) (acc : string) : string :=
  match fuel with
  | O => acc
  | S fuel' =>
      let acc' := digit_of (n mod 10) +:+ acc in
      if (n / 10 =? 0)%nat then acc' else str_nat_aux fuel' (n / 10) acc'
  end.

Definition str_nat (n : nat) : string := str_nat_aux (S n) n "".

(** ** ErrorAnalyzer *)

Module ErrorAnalyzer.

(** [ERROR_RECOVERY_MAP] *)
Definition ERROR_RECOVERY_MAP : gmap string (list RecoveryStrategy) :=
  list_to_map [
    ("DatabaseError", [POOL_INCREASE; TIMEOUT_INCREASE; CACHE_CLEAR]);
    ("TimeoutError", [TIMEOUT_INCREASE; RESOURCE_SCALE; CACHE_CLEAR]);
    ("MemoryError", [RESOURCE_SCALE; CACHE_CLEAR; QUEUE_PRIORITY]);
    ("ConnectionError", [RETRY; CIRCUIT_BREAK; FALLBACK]);
    ("ValidationError", [FALLBACK; REQUEST_THROTTLE]);
    ("AuthenticationError", [RETRY; REQUEST_THROTTLE]);
    ("APIError", [RETRY; TIMEOUT_INCREASE; FALLBACK]);
    ("ServiceUnavailableError", [RETRY; CIRCUIT_BREAK; SERVICE_RESTART])
  ].

(** The object built by [__init__]: the clock is read once, at construction. *)
Record t : Type := mk {
  error_log : option ErrorLog;
  analysis_timestamp : datetime
}.

Definition init (now : datetime) (log : option ErrorLog) : t :=
  {| error_log := log; analysis_timestamp := now |}.

Section Methods.

(** [self.error_log], where the methods below dereference it. *)
Variable log : ErrorLog.

Definition _get_recovery_strategies : list RecoveryStrategy :=
  default [RETRY; FALLBACK] (ERROR_RECOVERY_MAP !! error_type log).

(** The dictionary returned by [_detect_pattern], as a pair. *)
Definition _detect_pattern : option (string * RecoveryPriority) :=
  if String.eqb (severity log) "critical" then
    Some ("critical_error", CRITICAL)
  else if (3 <? frequency log)%Z then
    Some ("repeated_errors", HIGH)
  else None.

Definition severity_multipliers : gmap string Q :=
  list_to_map [
    ("critical", 0.25%Q);
    ("high", 0.15%Q);
    ("medium", 0.05%Q);
    ("low", 0.0%Q)
  ].

Definition _calculate_confidence : Q :=
  let confidence := 0.5%Q in
  let confidence :=
    if bool_decide (is_Some (ERROR_RECOVERY_MAP !! error_type log))
    then (confidence + 0.2)%Q else confidence in
  let confidence :=
    (confidence + default 0%Q (severity_multipliers !! severity log))%Q in
  Qmin 0.95 confidence.

(** [_calculate_confidence] once more, on binary64 numbers as Python
    computes it: [min(a, b)] is [b] when [b < a] and [a] otherwise, and the
    default [0] of [get] is added as [0.0]. *)
Definition py_min (a b : float) : float :=
  if (b <? a)%float then b else a.

Definition severity_multipliers_binary64 : gmap string float :=
  list_to_map [
    ("critical", 0.25%float);
    ("high", 0.15%float);
    ("medium", 0.05%float);
    ("low", 0.0%float)
  ].

Definition _calculate_confidence_binary64 : float :=
  let confidence := 0.5%float in
  let confidence :=
    if bool_decide (is_Some (ERROR_RECOVERY_MAP !! error_type log))
    then (confidence + 0.2)%float else confidence in
  let confidence :=
    (confidence
     + default 0%float (severity_multipliers_binary64 !! severity log))%float
  in
  py_min 0.95 confidence.

(** The expression [confidence * (1 - idx * 0.1)] of
    [_generate_recovery_actions] on binary64 numbers. *)
Definition declined_binary64 (conf : float) (idx : nat) : float :=
  (conf * (1 - PrimFloat.of_uint63 (Uint63.of_Z (Z.of_nat idx)) * 0.1))%float.

Definition _get_action_priority (s : RecoveryStrategy) (index : nat)
  : RecoveryPriority :=
  if String.eqb (severity log) "critical" then CRITICAL
  else if String.eqb (severity log) "high" then
    (if (index =? 0)%nat then HIGH else MEDIUM)
  else
    (if (index =? 0)%nat then MEDIUM else LOW).

Definition fallback_map : gmap string string :=
  list_to_map [
    ("django", "laravel");
    ("laravel", "django");
    ("java", "react");
    ("react", "angular");
    ("angular", "vue");
    ("vue", "flutter");
    ("flutter", "react")
  ].

Definition _get_fallback_service : string :=
  default "api-gateway" (fallback_map !! service log).

Definition _get_strategy_parameters (s : RecoveryStrategy) : PyDict :=
  match s with
  | RETRY =>
      [("max_retries", PInt 3); ("retry_delay_ms", PInt 1000);
       ("exponential_backoff", PBool true)]
  | TIMEOUT_INCREASE =>
      [("current_timeout_ms", PInt 5000); ("new_timeout_ms", PInt 15000);
       ("increment_percent", PInt 200)]
  | CACHE_CLEAR =>
      [("cache_type", PStr "redis"); ("clear_pattern", PStr "*");
       ("graceful", PBool true)]
  | POOL_INCREASE =>
      [("resource", PStr "db_connection_pool"); ("current_size", PInt 10);
       ("new_size", PInt 25); ("increment_percent", PInt 150)]
  | RESOURCE_SCALE =>
      [("resource_type", PStr "cpu"); ("scale_factor", PFloat 1.5%Q);
       ("auto_scale", PBool true)]
  | CIRCUIT_BREAK =>
      [("failure_threshold", PInt 5); ("timeout_seconds", PInt 60);
       ("half_open_requests", PInt 1)]
  | FALLBACK =>
      [("fallback_service", PStr _get_fallback_service);
       ("fallback_mode", PStr "degraded")]
  | QUEUE_PRIORITY =>
      [("current_priority", PStr "normal"); ("new_priority", PStr "high");
       ("boost_factor", PInt 2)]
  | REQUEST_THROTTLE =>
      [("requests_per_minute", PInt 100); ("burst_size", PInt 10)]
  | SERVICE_RESTART =>
      [("graceful", PBool true); ("timeout_seconds", PInt 30);
       ("health_check", PBool true)]
  end.

Definition _estimate_success_rate (s : RecoveryStrategy) : Q :=
  match s with
  | RETRY => 0.75
  | TIMEOUT_INCREASE => 0.65
  | CACHE_CLEAR => 0.80
  | POOL_INCREASE => 0.85
  | RESOURCE_SCALE => 0.80
  | CIRCUIT_BREAK => 0.90
  | FALLBACK => 0.95
  | QUEUE_PRIORITY => 0.70
  | REQUEST_THROTTLE => 0.65
  | SERVICE_RESTART => 0.88
  end%Q.

(** The body of the loop [for idx, strategy in enumerate(strategies)];
    [now idx] is what [timezone.now()] returns in iteration [idx]. *)
Definition make_action (now : nat -> datetime) (conf : Q) (idx : nat)
    (s : RecoveryStrategy) : RecoveryAction :=
  {| action_id := error_id log +:+ "_" +:+ str_nat idx;
     strategy := s;
     priority := _get_action_priority s idx;
     ra_service := service log;
     ra_error_type := error_type log;
     parameters := _get_strategy_parameters s;
     confidence := (conf * (1 - inject_Z (Z.of_nat idx) * 0.1))%Q;
     estimated_success_rate := _estimate_success_rate s;
     created_at := now idx;
     executed := false;
     execution_result := None |}.

Fixpoint generate_from (now : nat -> datetime) (conf : Q) (idx : nat)
    (strategies : list RecoveryStrategy) : list RecoveryAction :=
  match strategies with
  | [] => []
  | s :: rest =>
      make_action now conf idx s :: generate_from now conf (S idx) rest
  end.

Definition _generate_recovery_actions (now : nat -> datetime)
    (strategies : list RecoveryStrategy) (conf : Q) : list RecoveryAction :=
  generate_from now conf 0 strategies.

(** The dictionary built from one action at the end of [analyze_error]. *)
Definition action_entry (a : RecoveryAction) : ActionData :=
  {| ad_strategy := strategy_value (strategy a);
     ad_priority := priority_name (priority a);
     ad_confidence := confidence a;
     ad_success_rate := estimated_success_rate a;
     ad_parameters := parameters a |}.

End Methods.

(** [analyze_error]; [now] gives the clock readings taken while the actions
    are generated. *)
Definition analyze_error (self : t) (now : nat -> datetime) : Analysis :=
  match error_log self with
  | None => empty_analysis
  | Some log =>
      let strategies := _get_recovery_strategies log in
      let pattern_match := _detect_pattern log in
      let conf := _calculate_confidence log in
      let actions := _generate_recovery_actions log now strategies conf in
      {| an_error_id := Some (error_id log);
         an_error_type := Some (error_type log);
         an_service := Some (service log);
         an_severity := Some (severity log);
         an_timestamp := Some (timestamp log);
         an_analysis_timestamp := Some (analysis_timestamp self);
         an_predicted_recovery_strategies :=
           Some (strategy_value <$> strategies);
         an_recovery_actions := Some (action_entry <$> actions);
         an_ml_confidence := Some conf;
         an_pattern_match :=
           Some (match pattern_match with
                 | Some (ty, _) => Some ty
                 | None => None
                 end);
         an_recommended_priority :=
           Some (match pattern_match with
                 | Some (_, p) => priority_name p
                 | None => priority_name MEDIUM
                 end) |}
  end.

End ErrorAnalyzer.

(** ** AutoRecoveryExecutor *)

Module AutoRecoveryExecutor.

(** The dictionary a strategy executor returns: the entry ['success'], when
    the key is present, and the other entries. *)
Record ExecResult : Type := mkExecResult {
  r_success : option bool;
  r_rest : PyDict
}.

(** What a call of a strategy executor does: it returns a dictionary or it
    raises an [Exception] whose [str()] is [msg]. *)
Inductive Outcome : Type :=
  | Returned (r : ExecResult)
  | Raised (msg : string).

(** The dictionary [execution] of [_execute_single_action]. *)
Record Execution : Type := mkExecution {
  ex_strategy : string;
  ex_attempted_at : datetime;
  ex_success : bool;
  ex_result : option ExecResult;
  ex_error : option string
}.

(** The dictionary [result] of [execute_recovery]. *)
Record Result : Type := mkResult {
  res_error_id : option string;
  started_at : datetime;
  actions_executed : list Execution;
  actions_failed : list Execution;
  recovery_success : bool;
  recovery_message : string;
  completed_at : option datetime
}.

Definition priority_map : gmap string Z :=
  list_to_map [("CRITICAL", 1%Z); ("HIGH", 2%Z); ("MEDIUM", 3%Z); ("LOW", 4%Z)].

Definition _priority_to_number (priority_str : string) : Z :=
  default 4%Z (priority_map !! priority_str).

(** Python's [sorted(iterable, key=...)]. The language guarantees a stable
    sort, which determines the result; it is computed here by insertion. *)
Section Sorted.
Context {A : Type}.
Variable key : A -> Z.

Fixpoint insert_by_key (x : A) (l : list A) : list A :=
  match l with
  | [] => [x]
  | y :: l' =>
      if (key x <=? key y)%Z then x :: y :: l'
      else y :: insert_by_key x l'
  end.

Fixpoint sorted (l : list A) : list A :=
  match l with
  | [] => []
  | x :: l' => insert_by_key x (sorted l')
  end.

(** Ascending order of the key. *)
Definition key_le (a b : A) : Prop := (key a <= key b)%Z.

End Sorted.

(** The key by which [execute_recovery] sorts:
    [lambda x: self._priority_to_number(x['priority'])]. *)
Definition rank (x : ActionData) : Z := _priority_to_number (ad_priority x).

(** An execution that did not report success. *)
Definition failed_attempt (e : Execution) : Prop := ex_success e = false.

(** The execution that [_execute_single_action] builds in its [except]
    branch. *)
Definition captured (a : ActionData) (t : datetime) (msg : string)
  : Execution :=
  {| ex_strategy := ad_strategy a;
     ex_attempted_at := t;
     ex_success := false;
     ex_result := None;
     ex_error := Some msg |}.

(** The ten strategy executors, the pluggable point of the engine. Each one
    receives the action and acts on the outside world. *)
Record Executors (World : Type) : Type := mkExecutors {
  _execute_retry : ActionData -> World -> Outcome * World;
  _execute_timeout_increase : ActionData -> World -> Outcome * World;
  _execute_cache_clear : ActionData -> World -> Outcome * World;
  _execute_pool_increase : ActionData -> World -> Outcome * World;
  _execute_resource_scale : ActionData -> World -> Outcome * World;
  _execute_circuit_break : ActionData -> World -> Outcome * World;
  _execute_fallback : ActionData -> World -> Outcome * World;
  _execute_queue_priority : ActionData -> World -> Outcome * World;
  _execute_request_throttle : ActionData -> World -> Outcome * World;
  _execute_service_restart : ActionData -> World -> Outcome * World
}.

Arguments _execute_retry {World}.
Arguments _execute_timeout_increase {World}.
Arguments _execute_cache_clear {World}.
Arguments _execute_pool_increase {World}.
Arguments _execute_resource_scale {World}.
Arguments _execute_circuit_break {World}.
Arguments _execute_fallback {World}.
Arguments _execute_queue_priority {World}.
Arguments _execute_request_throttle {World}.
Arguments _execute_service_restart {World}.

Section Engine.

Context {World : Type}.

(** [timezone.now()]: a reading of the clock, which may move the world on. *)
Variable now : World -> datetime * World.
Variable executors : Executors World.

(** The [if]/[elif] chain inside the [try] block of
    [_execute_single_action]. *)
Definition route (action_data : ActionData) (w : World) : Outcome * World :=
  let strategy := ad_strategy action_data in
  if String.eqb strategy "retry" then
    _execute_retry executors action_data w
  else if String.eqb strategy "timeout_increase" then
    _execute_timeout_increase executors action_data w
  else if String.eqb strategy "cache_clear" then
    _execute_cache_clear executors action_data w
  else if String.eqb strategy "pool_increase" then
    _execute_pool_increase executors action_data w
  else if String.eqb strategy "resource_scale" then
    _execute_resource_scale executors action_data w
  else if String.eqb strategy "circuit_break" then
    _execute_circuit_break executors action_data w
  else if String.eqb strategy "fallback" then
    _execute_fallback executors action_data w
  else if String.eqb strategy "queue_priority" then
    _execute_queue_priority executors action_data w
  else if String.eqb strategy "request_throttle" then
    _execute_request_throttle executors action_data w
  else if String.eqb strategy "service_restart" then
    _execute_service_restart executors action_data w
  else
    (Returned {| r_success := Some false;
                 r_rest := [("message",
                             PStr ("Unknown strategy: " +:+ strategy))] |},
     w).

Definition _execute_single_action (action_data : ActionData) (w : World)
  : Execution * World :=
  let strategy := ad_strategy action_data in
  let '(attempted, w0) := now w in
  let '(outcome, w1) := route action_data w0 in
  match outcome with
  | Returned result =>
      ({| ex_strategy := strategy;
          ex_attempted_at := attempted;
          ex_success := default false (r_success result);
          ex_result := Some result;
          ex_error := None |}, w1)
  | Raised msg =>
      ({| ex_strategy := strategy;
          ex_attempted_at := attempted;
          ex_success := false;
          ex_result := None;
          ex_error := Some msg |}, w1)
  end.

(** The two branches of the loop body of [execute_recovery]. *)
Definition record_success (result : Result) (action_data : ActionData)
    (execution : Execution) : Result :=
  {| res_error_id := res_error_id result;
     started_at := started_at result;
     actions_executed := actions_executed result ++ [execution];
     actions_failed := actions_failed result;
     recovery_success := true;
     recovery_message :=
       "Recovery successful: " +:+ ad_strategy action_data;
     completed_at := completed_at result |}.

Definition record_failure (result : Result) (execution : Execution)
  : Result :=
  {| res_error_id := res_error_id result;
     started_at := started_at result;
     actions_executed := actions_executed result;
     actions_failed := actions_failed result ++ [execution];
     recovery_success := recovery_success result;
     recovery_message := recovery_message result;
     completed_at := completed_at result |}.

(** The [for] loop of [execute_recovery] over the sorted actions. Next to the
    report and the world it returns the actions that were handed to
    [_execute_single_action], in call order. *)
Fixpoint run_actions (acts : list ActionData) (result : Result)
    (calls : list ActionData) (w : World)
  : Result * list ActionData * World :=
  match acts with
  | [] => (result, calls, w)
  | action_data :: rest =>
      let '(execution, w') := _execute_single_action action_data w in
      if ex_success execution then
        (record_success result action_data execution,
         calls ++ [action_data], w')
      else
        run_actions rest (record_failure result execution)
          (calls ++ [action_data]) w'
  end.

Definition initial_result (analysis : Analysis) (started : datetime)
  : Result :=
  {| res_error_id := an_error_id analysis;
     started_at := started;
     actions_executed := [];
     actions_failed := [];
     recovery_success := false;
     recovery_message := "";
     completed_at := None |}.

Definition set_message (result : Result) (msg : string) : Result :=
  {| res_error_id := res_error_id result;
     started_at := started_at result;
     actions_executed := actions_executed result;
     actions_failed := actions_failed result;
     recovery_success := recovery_success result;
     recovery_message := msg;
     completed_at := completed_at result |}.

Definition set_completed_at (result : Result) (t : datetime) : Result :=
  {| res_error_id := res_error_id result;
     started_at := started_at result;
     actions_executed := actions_executed result;
     actions_failed := actions_failed result;
     recovery_success := recovery_success result;
     recovery_message := recovery_message result;
     completed_at := Some t |}.

(** [analysis.get('recovery_actions', [])] *)
Definition candidate_actions (analysis : Analysis) : list ActionData :=
  default [] (an_recovery_actions analysis).

Definition execute_recovery (analysis : Analysis) (w : World)
  : Result * list ActionData * World :=
  let '(started, w0) := now w in
  let result := initial_result analysis started in
  let actions := candidate_actions analysis in
  match actions with
  | [] => (set_message result "No recovery actions available", [], w0)
  | _ :: _ =>
      let '(result, calls, w1) :=
        run_actions
          (sorted rank actions)
          result [] w0 in
      let '(completed, w2) := now w1 in
      (set_completed_at result completed, calls, w2)
  end.

(** [attempts w acts execs w'] : calling [_execute_single_action] on the
    actions [acts] one after the other, from the world [w], yields the
    executions [execs] and leaves the world [w']. *)
Inductive attempts : World -> list ActionData -> list Execution -> World
    -> Prop :=
  | attempts_nil w : attempts w [] [] w
  | attempts_cons w a acts e w1 es w2 :
      _execute_single_action a w = (e, w1) ->
      attempts w1 acts es w2 ->
      attempts w (a :: acts) (e :: es) w2.

End Engine.

(** The executors of the source: each one logs a line that names
    [self.error_log.service] and reports success. Building that line raises
    [AttributeError] when the executor object was made without an error
    log. *)
Section Stubs.

Context {World : Type}.
Variable error_log : option ErrorLog.

Definition stub (message key : string) (dflt : PyVal)
    (echo : string) (action : ActionData) (w : World) : Outcome * World :=
  match error_log with
  | None => (Raised "'NoneType' object has no attribute 'service'", w)
  | Some _ =>
      (Returned
         {| r_success := Some true;
            r_rest := [("message", PStr message);
                       (echo, dict_get (ad_parameters action) key dflt)] |},
       w)
  end.

Definition source_executors : Executors World :=
  {| _execute_retry :=
       stub "Retry scheduled" "max_retries" (PInt 3) "retry_count";
     _execute_timeout_increase :=
       stub "Timeout increased" "new_timeout_ms" (PInt 15000) "new_timeout";
     _execute_cache_clear :=
       stub "Cache cleared" "cache_type" (PStr "redis") "cache_type";
     _execute_pool_increase :=
       stub "Connection pool increased" "new_size" (PInt 25) "new_size";
     _execute_resource_scale :=
       stub "Resources scaled" "scale_factor" (PFloat 1.5%Q) "scale_factor";
     _execute_circuit_break :=
       stub "Circuit breaker activated" "timeout_seconds" (PInt 60) "timeout";
     _execute_fallback :=
       stub "Switched to fallback service" "fallback_service"
         (PStr "api-gateway") "fallback_service";
     _execute_queue_priority :=
       stub "Queue priority boosted" "boost_factor" (PInt 2) "boost_factor";
     _execute_request_throttle :=
       stub "Request throttling enabled" "requests_per_minute" (PInt 100)
         "rate_limit";
     _execute_service_restart :=
       stub "Service restart scheduled" "graceful" (PBool true) "graceful" |}.

End Stubs.

End AutoRecoveryExecutor.

(** ** NotificationService *)

Module NotificationService.

(** [str.upper()] on ASCII letters; every other character is left as it
    is. The severities and the service names that the code compares with
    are ASCII. *)
Definition upper_ascii (c : ascii) : ascii :=
  let n := nat_of_ascii c in
  if ((97 <=? n) && (n <=? 122))%nat then ascii_of_nat (n - 32) else c.

Fixpoint upper (s : string) : string :=
  match s with
  | EmptyString => EmptyString
  | String c s' => String (upper_ascii c) (upper s')
  end.

(** [NotificationChannel.send(recipient, subject, message, error_data)]. Each
    of the four channels catches the exceptions of its transport and answers
    with a boolean; [error_data] is built from the error alone, which is
    passed in its place. *)
Definition Channel : Type := string -> string -> string -> ErrorLog -> bool.

(** The keyword arguments of a call of [ErrorNotification.objects.create],
    in the order of the call, which are also the content of the row that it
    writes. The error is referred to by its [error_id]. *)
Definition Kwargs : Type := list (string * string).

(** The names that the model [ErrorNotification] of [models.py] accepts as
    keyword arguments: its declared fields, the column of its foreign key,
    the primary key that Django adds and the two fields of
    [TimeStampedModel]. *)
Definition ErrorNotification_fields : list string :=
  ["notification_id"; "error"; "error_id";
   "recipient_name"; "recipient_email"; "recipient_phone";
   "recipient_slack_id";
   "channel"; "status";
   "delivered_at"; "read_at"; "retry_count"; "error_message";
   "id"; "pk"; "created"; "modified"].

(** The exceptions that leave the service. The first two are [TypeError]s:
    a call that lacks a required positional argument, and a model that is
    built with keywords that are none of its fields. *)
Inductive Exception : Type :=
  | MissingArgument (callee argument : string)
  | UnexpectedKeywords (model : string) (keywords : list string)
  | DatabaseException (msg : string).

(** [ErrorNotification.objects.create] with keyword arguments: the
    constructor of the model refuses the keywords that it does not know,
    before anything is written. *)
Definition ErrorNotification_create (rows : list Kwargs) (kwargs : Kwargs)
  : Exception + list Kwargs :=
  match filter (fun name => name ∉ ErrorNotification_fields) kwargs.*1 with
  | [] => inr (rows ++ [kwargs])
  | unexpected => inl (UnexpectedKeywords "ErrorNotification" unexpected)
  end.

(** The keywords of the two calls of [create] in [send_notification]. *)
Definition notification_kwargs (error : ErrorLog)
    (recipient channel_name subject message : string) (success : bool)
  : Kwargs :=
  if success then
    [("error", error_id error); ("recipient", recipient);
     ("channel", channel_name); ("status", "sent");
     ("message_subject", subject); ("message_body", message)]
  else
    [("error", error_id error); ("recipient", recipient);
     ("channel", channel_name); ("status", "failed");
     ("message_subject", subject); ("message_body", message);
     ("failure_reason", "Failed to send via " +:+ channel_name)].


(** The fields of [DeveloperAssignment] that the service reads. *)
Record DeveloperAssignment : Type := mkDeveloperAssignment {
  developer_id : string;
  name : string;
  email : string;
  services : list string;
  severity_levels : list string;
  email_enabled : bool;
  slack_enabled : bool;
  sms_enabled : bool;
  on_call : bool
}.

(** [DeveloperAssignment.can_receive_notification(self, severity,
    notification_type='email')] as a call: [None] stands for an argument
    that the caller does not pass. *)
Definition can_receive_notification (self : DeveloperAssignment)
    (severity notification_type : option string) : Exception + bool :=
  match severity with
  | None => inl (MissingArgument "can_receive_notification" "severity")
  | Some severity =>
      let notification_type := default "email" notification_type in
      inr (if negb (bool_decide (severity ∈ severity_levels self)) then false
           else if String.eqb notification_type "email"
                   && negb (email_enabled self) then false
           else if String.eqb notification_type "slack"
                   && negb (slack_enabled self) then false
           else if String.eqb notification_type "sms"
                   && negb (sms_enabled self) then false
           else true)
  end.

(** [preferred_channels], the table local to [notify_developers]. *)
Definition preferred_channels : gmap string (list string) :=
  list_to_map [
    ("critical", ["email"; "slack"; "sms"]);
    ("high", ["email"; "slack"]);
    ("medium", ["email"]);
    ("low", ["email"]);
    ("info", ["email"])
  ].

(** The value bound to [channels] in [notify_developers]:
    [preferred_channels.get(error.severity, ['email'])]. *)
Definition notify_channels (error : ErrorLog) : list string :=
  default ["email"] (preferred_channels !! severity error).

(** What [send_notification] and [notify_developers] return: the dictionary
    [{'error': 'Error not found'}] or the dictionary [results]. *)
Inductive Reply (R : Type) : Type :=
  | ErrorNotFound
  | Sent (results : R).

Arguments ErrorNotFound {R}.
Arguments Sent {R}.

(** What the evaluation of a query set gives: its rows, or an exception of
    the database. *)
Inductive QueryResult (A : Type) : Type :=
  | Rows (rows : list A)
  | QueryRaised (msg : string).

Arguments Rows {A}.
Arguments QueryRaised {A}.

Section Service.

(** The four channel objects created by [__init__]. *)
Variables EmailNotificationChannel SlackNotificationChannel
  SMSNotificationChannel WebhookNotificationChannel : Channel.

(** [self.channels] *)
Definition channels : gmap string Channel :=
  list_to_map [
    ("email", EmailNotificationChannel);
    ("slack", SlackNotificationChannel);
    ("sms", SMSNotificationChannel);
    ("webhook", WebhookNotificationChannel)
  ].

(** The table [ErrorLog.objects], keyed by [error_id]. *)
Variable errors : gmap string ErrorLog.

(** The loop [for channel_name in channels] of [send_notification]. Its
    state is the dictionary [results], the calls of [channel.send] made so
    far, as pairs of a channel name and a recipient, and the table of
    notification rows. An exception of [create] ends the loop. *)
Fixpoint send_loop (error : ErrorLog) (recipient : string)
    (channel_list : list string) (results : gmap string bool)
    (sends : list (string * string)) (rows : list Kwargs)
  : (Exception + gmap string bool) * list (string * string) * list Kwargs :=
  match channel_list with
  | [] => (inr results, sends, rows)
  | channel_name :: rest =>
      match (channels !! channel_name : option Channel) with
      | None => send_loop error recipient rest results sends rows
      | Some channel =>
          let subject :=
            "[" +:+ upper (severity error) +:+ "] " +:+ error_type error
            +:+ " in " +:+ service error in
          let msg := message error in
          let success : bool := channel recipient subject msg error in
          let results := <[channel_name := success]> results in
          let sends := sends ++ [(channel_name, recipient)] in
          match ErrorNotification_create rows
                  (notification_kwargs error recipient channel_name subject
                     msg success) with
          | inl exc => (inl exc, sends, rows)
          | inr rows' => send_loop error recipient rest results sends rows'
          end
      end
  end.

Definition send_notification (sends : list (string * string))
    (rows : list Kwargs) (error_id : string) (recipient : string)
    (channel_list : option (list string))
  : (Exception + Reply (gmap string bool))
    * list (string * string) * list Kwargs :=
  match errors !! error_id with
  | None => (inr ErrorNotFound, sends, rows)
  | Some error =>
      let channel_list := default ["email"; "slack"] channel_list in
      match send_loop error recipient channel_list ∅ sends rows with
      | (inl exc, sends', rows') => (inl exc, sends', rows')
      | (inr results, sends', rows') => (inr (Sent results), sends', rows')
      end
  end.

(** [DeveloperAssignment.objects.filter(services__contains=error.service,
    on_call=True)], evaluated when the loop over it starts. What the lookup
    [contains] of an array field selects for a string, and whether the
    database accepts it, is decided outside this repository. *)
Variable developers_on_call : string -> QueryResult DeveloperAssignment.

(** The loop [for dev in developers] of [notify_developers]; the method is
    called as [dev.can_receive_notification()], with no argument. *)
Fixpoint notify_loop (error_id : string) (channel_list : list string)
    (developers : list DeveloperAssignment)
    (results : gmap string (Reply (gmap string bool)))
    (sends : list (string * string)) (rows : list Kwargs)
  : (Exception + gmap string (Reply (gmap string bool)))
    * list (string * string) * list Kwargs :=
  match developers with
  | [] => (inr results, sends, rows)
  | dev :: rest =>
      match can_receive_notification dev None None with
      | inl exc => (inl exc, sends, rows)
      | inr false =>
          notify_loop error_id channel_list rest results sends rows
      | inr true =>
          match send_notification sends rows error_id (email dev)
                  (Some channel_list) with
          | (inl exc, sends', rows') => (inl exc, sends', rows')
          | (inr dev_results, sends', rows') =>
              notify_loop error_id channel_list rest
                (<[developer_id dev := dev_results]> results) sends' rows'
          end
      end
  end.

Definition notify_developers (sends : list (string * string))
    (rows : list Kwargs) (error_id : string)
  : (Exception + Reply (gmap string (Reply (gmap string bool))))
    * list (string * string) * list Kwargs :=
  match errors !! error_id with
  | None => (inr ErrorNotFound, sends, rows)
  | Some error =>
      let channel_list := notify_channels error in
      match developers_on_call (service error) with
      | QueryRaised msg => (inl (DatabaseException msg), sends, rows)
      | Rows developers =>
          match notify_loop error_id channel_list developers ∅ sends rows
          with
          | (inl exc, sends', rows') => (inl exc, sends', rows')
          | (inr results, sends', rows') =>
              (inr (Sent results), sends', rows')
          end
      end
  end.

End Service.

End NotificationService.

(** ** Scenarios *)

Module Scenarios.

Import ErrorAnalyzer AutoRecoveryExecutor.

(** A world that is nothing but a clock: each reading advances it. *)
Definition tick (w : nat) : datetime * nat := (Z.of_nat w, S w).

Definition connection_error : ErrorLog :=
  {| error_id := "6f1c2a9e-7d0b-4c55-9a53-0c1d2e3f4a5b";
     service := "django";
     severity := "high";
     error_type := "ConnectionError";
     message := "connection refused";
     timestamp := 1700000000%Z;
     frequency := 1%Z |}.

Definition unknown_error : ErrorLog :=
  {| error_id := "0b9d8c7e-1a2b-4c3d-8e4f-5a6b7c8d9e0f";
     service := "laravel";
     severity := "low";
     error_type := "UnknownType";
     message := "unexpected failure";
     timestamp := 1700000100%Z;
     frequency := 1%Z |}.

Definition critical_error : ErrorLog :=
  {| error_id := "c4a1e2d3-5b6f-4a7c-9d8e-1f2a3b4c5d6e";
     service := "java";
     severity := "critical";
     error_type := "UnknownType";
     message := "out of disk";
     timestamp := 1700000200%Z;
     frequency := 1%Z |}.

(** "info" is a severity of the [ErrorLog] model and no key of
    [severity_multipliers]. *)
Definition info_error : ErrorLog :=
  {| error_id := "9e8d7c6b-5a4f-4e3d-8c2b-1a0f9e8d7c6b";
     service := "django";
     severity := "info";
     error_type := "DatabaseError";
     message := "slow query";
     timestamp := 1700000300%Z;
     frequency := 1%Z |}.

(** The executors of the source, but with a retry that reports failure. *)
Definition retry_fails : Executors nat :=
  {| _execute_retry :=
       fun _ w =>
         (Returned {| r_success := Some false;
                      r_rest := [("message", PStr "Retry failed")] |}, w);
     _execute_timeout_increase :=
       _execute_timeout_increase (source_executors (Some connection_error));
     _execute_cache_clear :=
       _execute_cache_clear (source_executors (Some connection_error));
     _execute_pool_increase :=
       _execute_pool_increase (source_executors (Some connection_error));
     _execute_resource_scale :=
       _execute_resource_scale (source_executors (Some connection_error));
     _execute_circuit_break :=
       _execute_circuit_break (source_executors (Some connection_error));
     _execute_fallback :=
       _execute_fallback (source_executors (Some connection_error));
     _execute_queue_priority :=
       _execute_queue_priority (source_executors (Some connection_error));
     _execute_request_throttle :=
       _execute_request_throttle (source_executors (Some connection_error));
     _execute_service_restart :=
       _execute_service_restart (source_executors (Some connection_error)) |}.

(** An executor object made without an error log: every strategy executor
    raises [AttributeError]. *)
Definition all_raise : Executors nat := source_executors None.

Definition analysis_of (log : ErrorLog) : Analysis :=
  analyze_error (ErrorAnalyzer.init 1700000400%Z (Some log))
    (fun _ => 1700000400%Z).

(** Candidates supplied out of order, two of them of the same priority. *)
Definition shuffled_analysis : Analysis :=
  {| an_error_id := Some (error_id connection_error);
     an_error_type := Some "ConnectionError";
     an_service := Some "django";
     an_severity := Some "high";
     an_timestamp := Some 1700000000%Z;
     an_analysis_timestamp := Some 1700000400%Z;
     an_predicted_recovery_strategies := None;
     an_recovery_actions :=
       Some [mkActionData "fallback" "LOW" 0.5 0.85 [];
             mkActionData "cache_clear" "MEDIUM" 0.6 0.7 [];
             mkActionData "retry" "CRITICAL" 0.85 0.75 [];
             mkActionData "circuit_break" "MEDIUM" 0.7 0.9 [];
             mkActionData "timeout_increase" "HIGH" 0.8 0.65 []];
     an_ml_confidence := Some 0.85%Q;
     an_pattern_match := Some None;
     an_recommended_priority := Some "MEDIUM" |}.

(** A channel that always delivers. *)
Definition delivers : NotificationService.Channel := fun _ _ _ _ => true.

Definition error_table : gmap string ErrorLog :=
  {[ error_id critical_error := critical_error ]}.

End Scenarios.

(** ** ErrorAlertManager *)

Module ErrorAlertManager.

Import AutoRecoveryExecutor.

(** The attributes of [django.conf.settings] that the alert manager reads;
    [None] stands for an attribute that is not set. *)
Record Settings : Type := mkSettings {
  ERROR_ALERT_RECIPIENTS : option (list string);
  ERROR_ESCALATION_RECIPIENTS : option (list string);
  DEFAULT_FROM_EMAIL : string
}.

(** The arguments of one call of [send_mail]. *)
Record Mail : Type := mkMail {
  mail_subject : string;
  mail_message : string;
  mail_from_email : string;
  mail_recipient_list : list string
}.

Definition nl : string := String (ascii_of_nat 10) EmptyString.

(** [s * n] on strings. *)
Fixpoint str_times (s : string) (n : nat) : string :=
  match n with
  | O => ""
  | S n' => s +:+ str_times s n'
  end.

(** [str(z)] for an [int]. *)
Definition str_Z (z : Z) : string :=
  if (z <? 0)%Z then "-" +:+ str_nat (Z.to_nat (- z))
  else str_nat (Z.to_nat z).

(** An optional string inside an f-string: [None] is printed as "None". *)
Definition fmt_option (o : option string) : string := default "None" o.

Section Alerts.

(** The renderings of Python that the report uses: [datetime.isoformat()],
    the format [.1%] of a number and [str()] of a float. *)
Variable isoformat : datetime -> string.
Variable format_percent : Q -> string.
Variable str_float : Q -> string.

(** [list(set(xs))]: the elements of [xs] without duplicates, in an order
    that the language leaves open. *)
Variable list_of_set : gset string -> list string.

(** [send_mail(..., fail_silently=False)]: [true] when the call returns,
    [false] when it raises. *)
Variable send_mail : Mail -> bool.

Variable settings : Settings.

(** [self.error_log] *)
Variable error_log : option ErrorLog.

Definition fmt_value (v : PyVal) : string :=
  match v with
  | PInt z => str_Z z
  | PFloat q => str_float q
  | PStr s => s
  | PBool true => "True"
  | PBool false => "False"
  end.

Definition _generate_subject (analysis : Analysis) (execution : Result)
  : string :=
  let error_type := default "Unknown" (an_error_type analysis) in
  let service :=
    NotificationService.upper (default "Unknown" (an_service analysis)) in
  let success := recovery_success execution in
  let status := if success then "RECOVERED" else "NEEDS ATTENTION" in
  "[" +:+ service +:+ "] " +:+ error_type +:+ " - " +:+ status.

(** The line of an executed action; [action['result'].get(...)] raises
    [AttributeError] when the execution carries no result. *)
Definition executed_line (action : Execution) : option string :=
  match ex_result action with
  | None => None
  | Some result =>
      Some ("  - " +:+ ex_strategy action +:+ ": "
            +:+ fmt_value (dict_get (r_rest result) "message"
                             (PStr "Executed"))
            +:+ nl)
  end.

(** The line of a failed action. The key ['error'] is always present in an
    execution, so that its value is printed, [None] included. *)
Definition failed_line (action : Execution) : string :=
  "  - " +:+ ex_strategy action +:+ ": FAILED - "
  +:+ fmt_option (ex_error action) +:+ nl.

Fixpoint executed_lines (actions : list Execution) (message : string)
  : option string :=
  match actions with
  | [] => Some message
  | action :: rest =>
      match executed_line action with
      | None => None
      | Some line => executed_lines rest (message +:+ line)
      end
  end.

Fixpoint failed_lines (actions : list Execution) (message : string)
  : string :=
  match actions with
  | [] => message
  | action :: rest => failed_lines rest (message +:+ failed_line action)
  end.

Definition message_head (analysis : Analysis) : string :=
  nl +:+ "ERROR ALERT AND RECOVERY REPORT" +:+ nl
  +:+ str_times "=" 50 +:+ nl
  +:+ nl
  +:+ "Error Details:" +:+ nl
  +:+ "- Error ID: " +:+ fmt_option (an_error_id analysis) +:+ nl
  +:+ "- Service: " +:+ fmt_option (an_service analysis) +:+ nl
  +:+ "- Type: " +:+ fmt_option (an_error_type analysis) +:+ nl
  +:+ "- Severity: " +:+ fmt_option (an_severity analysis) +:+ nl
  +:+ "- Timestamp: "
  +:+ fmt_option (isoformat <$> an_timestamp analysis) +:+ nl
  +:+ nl
  +:+ "ML Analysis:" +:+ nl
  +:+ "- Confidence: "
  +:+ format_percent (default 0%Q (an_ml_confidence analysis)) +:+ nl
  +:+ "- Pattern Match: "
  +:+ fmt_option (default None (an_pattern_match analysis)) +:+ nl
  +:+ "- Priority: "
  +:+ fmt_option (an_recommended_priority analysis) +:+ nl
  +:+ nl
  +:+ "Recovery Actions:" +:+ nl.

Definition message_tail : string :=
  nl +:+ "Recommended Actions:" +:+ nl
  +:+ "- Monitor error frequency" +:+ nl
  +:+ "- Check service logs" +:+ nl
  +:+ "- Investigate underlying cause" +:+ nl
  +:+ "- Review performance metrics" +:+ nl
  +:+ nl
  +:+ str_times "=" 50 +:+ nl
  +:+ "Please take appropriate action based on the recovery status." +:+ nl
  +:+ "        ".

(** [_generate_message]; [None] when building the report raises. *)
Definition _generate_message (analysis : Analysis) (execution : Result)
  : option string :=
  let message := message_head analysis in
  let body :=
    if recovery_success execution then
      executed_lines (actions_executed execution)
        (message +:+ nl +:+ "✓ RECOVERY SUCCESSFUL" +:+ nl)
    else
      match executed_lines (actions_executed execution)
              (message +:+ nl +:+ "✗ RECOVERY ATTEMPTED" +:+ nl) with
      | None => None
      | Some message =>
          Some (failed_lines (actions_failed execution) message)
      end in
  match body with
  | None => None
  | Some message => Some (message +:+ message_tail)
  end.

Definition _get_recipients (analysis : Analysis) : list string :=
  let default_recipients :=
    default ["admin@feedinghearts.com"] (ERROR_ALERT_RECIPIENTS settings) in
  let severity := an_severity analysis in
  if bool_decide (severity = Some "critical" \/ severity = Some "high") then
    let escalation_recipients :=
      default [] (ERROR_ESCALATION_RECIPIENTS settings) in
    list_of_set (list_to_set (default_recipients ++ escalation_recipients))
  else default_recipients.

(** [send_recovery_alert]: the value returned and the mails handed to
    [send_mail]. Every exception raised inside is caught and turned into
    [False]; the two log lines name [self.error_log.error_id] and raise
    [AttributeError] when the manager was made without an error log. *)
Definition send_recovery_alert (analysis : Analysis) (execution : Result)
  : bool * list Mail :=
  let subject := _generate_subject analysis execution in
  match _generate_message analysis execution with
  | None => (false, [])
  | Some message =>
      let recipients := _get_recipients analysis in
      match recipients with
      | [] => (false, [])
      | _ :: _ =>
          let mail :=
            {| mail_subject := subject;
               mail_message := message;
               mail_from_email := DEFAULT_FROM_EMAIL settings;
               mail_recipient_list := recipients |} in
          if send_mail mail then
            match error_log with
            | Some _ => (true, [mail])
            | None => (false, [mail])
            end
          else (false, [mail])
      end
  end.

End Alerts.

End ErrorAlertManager.

(** ** Notification channels *)

Module WebhookNotificationChannel.

(** What [requests.post] does: it returns a response with a status code or
    it raises. *)
Inductive PostOutcome : Type :=
  | Responded (status_code : Z)
  | PostRaised.

Definition delivered (o : PostOutcome) : bool :=
  match o with
  | Responded status_code => negb (400 <=? status_code)%Z
  | PostRaised => false
  end.

Section Send.

Context {World : Type}.

(** [requests.post(webhook_url, json=payload, timeout=10)] *)
Variable post : string -> World -> PostOutcome * World.

(** The loop [for webhook_url in self.webhook_urls]: the flag [success], the
    posts made so far with their outcomes, and the world. *)
Fixpoint post_all (webhook_urls : list string) (success : bool)
    (posts : list (string * PostOutcome)) (w : World)
  : bool * list (string * PostOutcome) * World :=
  match webhook_urls with
  | [] => (success, posts, w)
  | webhook_url :: rest =>
      let '(outcome, w') := post webhook_url w in
      post_all rest (if delivered outcome then success else false)
        (posts ++ [(webhook_url, outcome)]) w'
  end.

Definition send (webhook_urls : list string) (w : World)
  : bool * list (string * PostOutcome) * World :=
  match webhook_urls with
  | [] => (false, [], w)
  | _ :: _ => post_all webhook_urls true [] w
  end.

End Send.

End WebhookNotificationChannel.

(** ** The strategies and their executors *)

Module StrategyDispatch.

Import AutoRecoveryExecutor.

(** The strategy names that [_execute_single_action] routes. *)
Definition routed_strategies : list string :=
  ["retry"; "timeout_increase"; "cache_clear"; "pool_increase";
   "resource_scale"; "circuit_break"; "fallback"; "queue_priority";
   "request_throttle"; "service_restart"].

(** The executor whose name is that of the strategy. *)
Definition executor_for {World : Type} (executors : Executors World)
    (s : RecoveryStrategy) : ActionData -> World -> Outcome * World :=
  match s with
  | RETRY => _execute_retry executors
  | TIMEOUT_INCREASE => _execute_timeout_increase executors
  | CACHE_CLEAR => _execute_cache_clear executors
  | POOL_INCREASE => _execute_pool_increase executors
  | RESOURCE_SCALE => _execute_resource_scale executors
  | CIRCUIT_BREAK => _execute_circuit_break executors
  | FALLBACK => _execute_fallback executors
  | QUEUE_PRIORITY => _execute_queue_priority executors
  | REQUEST_THROTTLE => _execute_request_throttle executors
  | SERVICE_RESTART => _execute_service_restart executors
  end.

End StrategyDispatch.

(** ** AIErrorRecoveryMiddleware *)

Module AIErrorRecoveryMiddleware.

Import ErrorAnalyzer AutoRecoveryExecutor ErrorAlertManager.

Definition critical_errors : list string :=
  ["DatabaseError"; "OutOfMemoryError"; "SystemError"; "AssertionError"].

Definition high_errors : list string :=
  ["TimeoutError"; "ConnectionError"; "IOError"; "OSError"].

Definition medium_errors : list string :=
  ["ValueError"; "KeyError"; "AttributeError"; "TypeError"].

(** [_determine_severity]; its argument [exc] is not used. *)
Definition _determine_severity (error_type : string) : string :=
  if bool_decide (error_type ∈ critical_errors) then "critical"
  else if bool_decide (error_type ∈ high_errors) then "high"
  else if bool_decide (error_type ∈ medium_errors) then "medium"
  else "low".

Definition valid_services : list string :=
  ["django"; "laravel"; "java"; "react"; "angular"; "vue"; "flutter";
   "nginx"].

(** [_get_service_from_request], on the dictionary [request.META]. *)
Definition _get_service_from_request (META : gmap string string) : string :=
  let service := default "django" (META !! "HTTP_X_SERVICE") in
  if bool_decide (service ∈ valid_services) then service else "django".

Definition _get_status_code (error_type severity : string) : Z :=
  if String.eqb severity "critical" then 500
  else if String.eqb severity "high" then 503
  else if String.eqb severity "medium" then 400
  else 400.

(** The dictionary returned by [_trigger_ai_recovery]. *)
Record Recovery : Type := mkRecovery {
  attempted : bool;
  success : bool;
  rec_message : string;
  actions : list (string * bool)
}.

(** The content of the [JsonResponse] built by [_handle_exception]. *)
Record JsonResponse : Type := mkJsonResponse {
  status : Z;
  err_type : string;
  err_message : string;
  err_error_id : string;
  err_severity : string;
  recovery : Recovery
}.

(** What the wrapped view does: it returns a response, of which the
    middleware reads the status code, or it raises an exception, of which
    the middleware reads the type name and the message. *)
Inductive ViewOutcome : Type :=
  | Responds (status_code : Z)
  | Throws (error_type message : string).

(** What the middleware hands back: the response of the view or its own
    JSON response. *)
Inductive HttpResponse : Type :=
  | FromView (status_code : Z)
  | Json (response : JsonResponse).

Section Middleware.

Context {World : Type}.

(** [timezone.now()] and [uuid.uuid4()], the defaults of the fields
    [timestamp] and [error_id] of [ErrorLog]. *)
Variable now : World -> datetime * World.
Variable uuid4 : World -> string * World.

(** The insertion of a new row by [ErrorLog.objects.create]: [None] when it
    is done, the type name and the message of the exception when it
    raises. *)
Variable save : ErrorLog -> World -> option (string * string) * World.

Variable isoformat : datetime -> string.
Variable format_percent : Q -> string.
Variable str_float : Q -> string.
Variable list_of_set : gset string -> list string.
Variable send_mail : Mail -> bool.
Variable settings : Settings.

(** [ErrorLog.objects.create] with the four fields that the engine reads;
    [frequency] takes its default 1. *)
Definition objects_create (service error_type message severity : string)
    (w : World) : (ErrorLog + string * string) * World :=
  let '(eid, w1) := uuid4 w in
  let '(ts, w2) := now w1 in
  let error_log :=
    {| error_id := eid; service := service; severity := severity;
       error_type := error_type; message := message; timestamp := ts;
       frequency := 1 |} in
  let '(raised, w3) := save error_log w2 in
  match raised with
  | None => (inl error_log, w3)
  | Some exc => (inr exc, w3)
  end.

(** [_create_error_log]: the exception of the database is logged and raised
    again. *)
Definition _create_error_log (META : gmap string string)
    (error_type message severity : string) (w : World)
  : (ErrorLog + string * string) * World :=
  let service := _get_service_from_request META in
  objects_create service error_type message severity w.

(** [n] successive readings of the clock. *)
Fixpoint read_clock (n : nat) (w : World) : list datetime * World :=
  match n with
  | O => ([], w)
  | S n' =>
      let '(t, w1) := now w in
      let '(ts, w2) := read_clock n' w1 in
      (t :: ts, w2)
  end.

(** [ErrorAnalyzer(error_log).analyze_error()]: the clock is read when the
    analyzer is built and once for each action that is generated. *)
Definition analyze (error_log : ErrorLog) (w : World) : Analysis * World :=
  let '(t0, w1) := now w in
  let analyzer := ErrorAnalyzer.init t0 (Some error_log) in
  let '(stamps, w2) :=
    read_clock (length (_get_recovery_strategies error_log)) w1 in
  (analyze_error analyzer (fun idx => nth idx stamps t0), w2).

(** [AutoRecoveryExecutor(error_log).execute_recovery(analysis)], with the
    strategy executors of the source. *)
Definition recover (error_log : ErrorLog) (analysis : Analysis) (w : World)
  : Result * World :=
  let '(execution, _, w1) :=
    execute_recovery now (source_executors (Some error_log)) analysis w in
  (execution, w1).

(** [_trigger_ai_recovery], with the mails handed to [send_mail]. None of
    the calls in its [try] block raises for an error log: the analyzer and
    the executor return for every input and [send_recovery_alert] catches
    its exceptions, so that the [except] branch is left out. *)
Definition _trigger_ai_recovery (error_log : ErrorLog) (w : World)
  : Recovery * list Mail * World :=
  let '(analysis, w1) := analyze error_log w in
  let '(execution, w2) := recover error_log analysis w1 in
  let '(_, outbox) :=
    send_recovery_alert isoformat format_percent str_float list_of_set
      send_mail settings (Some error_log) analysis execution in
  ({| attempted := true;
      success := recovery_success execution;
      rec_message := recovery_message execution;
      actions :=
        (fun a => (ex_strategy a, ex_success a))
          <$> actions_executed execution |},
   outbox, w2).

(** [_handle_exception]; on the right, the exception of the database that
    [_create_error_log] raises again. *)
Definition _handle_exception (META : gmap string string)
    (error_type message : string) (w : World)
  : (JsonResponse + string * string) * list Mail * World :=
  let severity := _determine_severity error_type in
  match _create_error_log META error_type message severity w with
  | (inr exc, w1) => (inr exc, [], w1)
  | (inl error_log, w1) =>
      let '(recovery_result, outbox, w2) :=
        _trigger_ai_recovery error_log w1 in
      (inl {| status := _get_status_code error_type severity;
              err_type := error_type;
              err_message := message;
              err_error_id := error_id error_log;
              err_severity := severity;
              recovery := recovery_result |},
       outbox, w2)
  end.

(** [_handle_http_error]: it returns nothing, or the database raises. *)
Definition _handle_http_error (META : gmap string string) (status_code : Z)
    (w : World) : option (string * string) * list Mail * World :=
  let severity :=
    if (500 <=? status_code)%Z then "critical"
    else if (400 <=? status_code)%Z then "medium"
    else "low" in
  match _create_error_log META ("HTTP" +:+ str_Z status_code)
          ("HTTP " +:+ str_Z status_code +:+ " Error") severity w with
  | (inr exc, w1) => (Some exc, [], w1)
  | (inl error_log, w1) =>
      if (500 <=? status_code)%Z then
        let '(_, outbox, w2) := _trigger_ai_recovery error_log w1 in
        (None, outbox, w2)
      else (None, [], w1)
  end.

(** [__call__]. An exception raised while an error response is handled is
    caught by the same [except Exception] as an exception of the view. *)
Definition call (META : gmap string string) (view : ViewOutcome) (w : World)
  : (HttpResponse + string * string) * list Mail * World :=
  match view with
  | Responds status_code =>
      if (400 <=? status_code)%Z then
        match _handle_http_error META status_code w with
        | (None, outbox, w1) => (inl (FromView status_code), outbox, w1)
        | (Some (error_type, message), outbox, w1) =>
            match _handle_exception META error_type message w1 with
            | (inl response, outbox', w2) =>
                (inl (Json response), outbox ++ outbox', w2)
            | (inr exc, outbox', w2) => (inr exc, outbox ++ outbox', w2)
            end
        end
      else (inl (FromView status_code), [], w)
  | Throws error_type message =>
      match _handle_exception META error_type message w with
      | (inl response, outbox, w1) => (inl (Json response), outbox, w1)
      | (inr exc, outbox, w1) => (inr exc, outbox, w1)
      end
  end.

(** [ErrorRecoveryContextManager.__exit__]: the value returned, which tells
    Python whether to suppress the exception of the block. [exc] is [None]
    when the block ended without exception. *)
Definition __exit__ (service : string) (exc : option (string * string))
    (w : World) : bool * World :=
  match exc with
  | None => (false, w)
  | Some (error_type, message) =>
      match objects_create service error_type message "high" w with
      | (inr _, w1) => (false, w1)
      | (inl error_log, w1) =>
          let '(analysis, w2) := analyze error_log w1 in
          let '(execution, w3) := recover error_log analysis w2 in
          (recovery_success execution, w3)
      end
  end.

End Middleware.

End AIErrorRecoveryMiddleware.

(** ** Scenarios of the pipeline *)

Module PipelineScenarios.

Import ErrorAlertManager AIErrorRecoveryMiddleware.

Definition fixed_uuid (w : nat) : string * nat :=
  ("2d7c6b1a-0f4e-4b8a-9c3d-5e6f7a8b9c0d", w).

Definition database_up (log : ErrorLog) (w : nat)
  : option (string * string) * nat := (None, w).

Definition database_down (log : ErrorLog) (w : nat)
  : option (string * string) * nat :=
  (Some ("OperationalError", "could not connect to server"), w).

Definition plain_settings : Settings :=
  {| ERROR_ALERT_RECIPIENTS := None;
     ERROR_ESCALATION_RECIPIENTS := Some ["oncall@feedinghearts.com"];
     DEFAULT_FROM_EMAIL := "noreply@feedinghearts.com" |}.

Definition no_rendering {A : Type} (x : A) : string := "".

Definition mail_goes_out (m : Mail) : bool := true.

(** The error log that the middleware creates for a [ValueError] when the
    clock shows 0. *)
Definition created_log : ErrorLog :=
  {| error_id := "2d7c6b1a-0f4e-4b8a-9c3d-5e6f7a8b9c0d";
     service := "django";
     severity := "medium";
     error_type := "ValueError";
     message := "invalid literal";
     timestamp := 0%Z;
     frequency := 1%Z |}.

(** An action whose strategy no executor is registered for. *)
Definition unrouted_action : ActionData :=
  {| ad_strategy := "reboot";
     ad_priority := "HIGH";
     ad_confidence := 0.5%Q;
     ad_success_rate := 0.5%Q;
     ad_parameters := [] |}.

Definition oncall_developer : NotificationService.DeveloperAssignment :=
  {| NotificationService.developer_id :=
       "7a6b5c4d-3e2f-4a1b-8c9d-0e1f2a3b4c5d";
     NotificationService.name := "Asha";
     NotificationService.email := "asha@feedinghearts.com";
     NotificationService.services := ["java"; "django"];
     NotificationService.severity_levels := ["critical"; "high"];
     NotificationService.email_enabled := true;
     NotificationService.slack_enabled := true;
     NotificationService.sms_enabled := false;
     NotificationService.on_call := true |}.

(** A query that finds the developer on call, whatever the service. *)
Definition developers_found (service : string)
  : NotificationService.QueryResult NotificationService.DeveloperAssignment :=
  NotificationService.Rows [oncall_developer].

(** A webhook endpoint that answers 204 and one that answers 502. *)
Definition endpoint (url : string) (w : nat)
  : WebhookNotificationChannel.PostOutcome * nat :=
  (if String.eqb url "https://hooks.feedinghearts.com/ok"
   then WebhookNotificationChannel.Responded 204
   else WebhookNotificationChannel.Responded 502, S w).

End PipelineScenarios.

(** * Properties *)

Import ErrorAnalyzer AutoRecoveryExecutor.

(** ** [sorted] is a stable sort *)

Section SortedFacts.

Context {A : Type}.
Variable key : A -> Z.

Lemma insert_by_key_perm (x : A) (l : list A) :
  insert_by_key key x l ≡ₚ x :: l.
Proof.
  induction l as [|y l IH]; simpl; [done|].
  destruct (key x <=? key y)%Z; [done|].
  rewrite IH. apply Permutation_swap.
Qed.

Lemma sorted_perm (l : list A) : sorted key l ≡ₚ l.
Proof.
  induction l as [|x l IH]; simpl; [done|].
  by rewrite insert_by_key_perm, IH.
Qed.

Lemma sorted_length (l : list A) : length (sorted key l) = length l.
Proof. apply Permutation_length, sorted_perm. Qed.

Lemma insert_by_key_sorted (x : A) (l : list A) :
  StronglySorted (key_le key) l -> StronglySorted (key_le key) (insert_by_key key x l).
Proof.
  induction 1 as [|y l Hl IH Hy]; simpl.
  - repeat constructor.
  - destruct (Z.leb_spec (key x) (key y)) as [Hxy|Hxy].
    + constructor; [by constructor|].
      constructor; [done|].
      eapply Forall_impl; [exact Hy|].
      unfold key_le. intros z Hz. lia.
    + constructor; [done|].
      rewrite insert_by_key_perm. constructor; [|done].
      unfold key_le. lia.
Qed.

Lemma sorted_sorted (l : list A) : StronglySorted (key_le key) (sorted key l).
Proof.
  induction l as [|x l IH]; simpl; [constructor|].
  by apply insert_by_key_sorted.
Qed.

(** Inserting [x] leaves the elements of every rank in their order, and puts
    [x] in front of the elements of its own rank. *)
Lemma insert_by_key_filter (k : Z) (x : A) (l : list A) :
  filter (fun a => key a = k) (insert_by_key key x l)
  = filter (fun a => key a = k) (x :: l).
Proof.
  induction l as [|y l IH]; simpl; [done|].
  destruct (Z.leb_spec (key x) (key y)) as [Hxy|Hxy]; [done|].
  rewrite filter_cons, IH, !filter_cons.
  repeat case_decide; try done; lia.
Qed.

Lemma sorted_stable (k : Z) (l : list A) :
  filter (fun a => key a = k) (sorted key l) = filter (fun a => key a = k) l.
Proof.
  induction l as [|x l IH]; simpl; [done|].
  by rewrite insert_by_key_filter, !filter_cons, IH.
Qed.

(** A list that is in ascending order of rank and keeps the elements of each
    rank in their order of [l] is [sorted key l]: stability leaves no choice,
    whatever the sorting algorithm. *)
Lemma stable_sort_unique (l1 l2 : list A) :
  StronglySorted (key_le key) l1 -> StronglySorted (key_le key) l2 ->
  (forall k, filter (fun a => key a = k) l1 = filter (fun a => key a = k) l2) ->
  l1 = l2.
Proof.
  intros H1. revert l2.
  induction H1 as [|a l1 Hl1 IH Ha]; intros l2 H2 Hf.
  - destruct l2 as [|b l2]; [done|].
    specialize (Hf (key b)). rewrite filter_cons_True in Hf by done.
    discriminate.
  - destruct H2 as [|b l2 Hl2 Hb].
    { specialize (Hf (key a)). rewrite filter_cons_True in Hf by done.
      discriminate. }
    assert (key a = key b) as Hab.
    { assert (key_le key a b) as Hle1.
      { assert (b ∈ a :: l1) as Hin.
        { eapply (list_elem_of_filter (fun x => key x = key b)).
          rewrite (Hf (key b)), filter_cons_True by done. left. }
        apply elem_of_cons in Hin as [->|Hin]; [unfold key_le; lia|].
        by eapply Forall_forall in Ha. }
      assert (key_le key b a) as Hle2.
      { assert (a ∈ b :: l2) as Hin.
        { eapply (list_elem_of_filter (fun x => key x = key a)).
          rewrite <- (Hf (key a)), filter_cons_True by done. left. }
        apply elem_of_cons in Hin as [->|Hin]; [unfold key_le; lia|].
        by eapply Forall_forall in Hb. }
      unfold key_le in *. lia. }
    pose proof (Hf (key a)) as Hfa.
    rewrite filter_cons_True in Hfa by done.
    rewrite filter_cons_True in Hfa by done.
    injection Hfa as -> Hfa'.
    f_equal. apply IH; [done|].
    intros k. specialize (Hf k). rewrite !filter_cons in Hf.
    case_decide; [by injection Hf|done].
Qed.

End SortedFacts.

(** ** [execute_recovery] *)

Section RecoveryFacts.

Context {World : Type}.
Variable now : World -> datetime * World.
Variable executors : Executors World.

Local Abbreviation single := (_execute_single_action now executors).
Local Abbreviation tries := (attempts now executors).

Lemma attempts_length w acts execs w' :
  tries w acts execs w' -> length execs = length acts.
Proof. induction 1; simpl; congruence. Qed.

Lemma attempts_strategies w acts execs w' :
  tries w acts execs w' -> ex_strategy <$> execs = ad_strategy <$> acts.
Proof.
  induction 1 as [|w a acts e w1 es w2 He _ IH]; simpl; [done|].
  f_equal; [|done].
  unfold _execute_single_action in He.
  destruct (now w) as [t w0], (route executors a w0) as [[r|msg] w1'];
    by inversion He.
Qed.

(** What the loop does from any state: it tries a prefix [tried] of the
    actions; all the attempts but possibly the last failed and were appended
    to the failed list; the loop ends either with the list exhausted or on
    a last attempt that succeeded, which alone is appended to the executed
    list. *)
Lemma run_actions_spec (acts : list ActionData) :
  forall (res : Result) (calls : list ActionData) (w : World),
  exists tried rest fails succ res' w',
    run_actions now executors acts res calls w = (res', calls ++ tried, w')
    /\ acts = tried ++ rest
    /\ tries w tried (fails ++ succ) w'
    /\ Forall failed_attempt fails
    /\ actions_failed res' = actions_failed res ++ fails
    /\ actions_executed res' = actions_executed res ++ succ
    /\ res_error_id res' = res_error_id res
    /\ started_at res' = started_at res
    /\ completed_at res' = completed_at res
    /\ ((succ = [] /\ rest = []
         /\ recovery_success res' = recovery_success res
         /\ recovery_message res' = recovery_message res)
        \/ (exists e a tried0,
              succ = [e] /\ tried = tried0 ++ [a] /\ ex_success e = true
              /\ recovery_success res' = true
              /\ recovery_message res'
                 = "Recovery successful: " +:+ ad_strategy a)).
Proof.
  induction acts as [|a acts IH]; intros res calls w.
  - exists [], [], [], [], res, w. simpl. rewrite !app_nil_r.
    repeat split; try done; [constructor | left; done].
  - simpl. destruct (single a w) as [e w1] eqn:He.
    destruct (ex_success e) eqn:Hs.
    + exists [a], acts, [], [e], (record_success res a e), w1.
      simpl. rewrite app_nil_r.
      repeat split; try done.
      * econstructor; [exact He | constructor].
      * right. exists e, a, []. done.
    + destruct (IH (record_failure res e) (calls ++ [a]) w1)
        as (tried & rest & fails & succ & res' & w' & Hrun & Hacts & Htries
            & Hfails & Hf & Hx & Hid & Hst & Hco & Hend).
      exists (a :: tried), rest, (e :: fails), succ, res', w'.
      rewrite Hrun, <- app_assoc. simpl in *.
      rewrite <- app_assoc in Hf. subst acts.
      repeat split; try done.
      * econstructor; [exact He | exact Htries].
      * by constructor.
      * destruct Hend as [Hend | (e' & a' & tried0 & -> & -> & ? & ? & ?)];
          [left; done|].
        right. exists e', a', (a :: tried0). done.
Qed.

(** An execution that carries a captured error did not succeed. *)
Lemma single_error_failed a w :
  is_Some (ex_error (single a w).1) -> failed_attempt (single a w).1.
Proof.
  unfold _execute_single_action.
  destruct (now w) as [t w0], (route executors a w0) as [[r|msg] w1]; simpl.
  - by intros [? ?].
  - done.
Qed.

Lemma attempts_error_failed w acts execs w' :
  tries w acts execs w' ->
  Forall (fun e => is_Some (ex_error e) -> failed_attempt e) execs.
Proof.
  induction 1 as [|w a acts e w1 es w2 He _ IH]; constructor; [|done].
  pose proof (single_error_failed a w) as Hs. by rewrite He in Hs.
Qed.

Lemma attempts_all_failed w acts execs w' :
  (forall a v, failed_attempt (single a v).1) ->
  tries w acts execs w' -> Forall failed_attempt execs.
Proof.
  intros Hall. induction 1 as [|w a acts e w1 es w2 He _ IH];
    constructor; [|done].
  specialize (Hall a w). by rewrite He in Hall.
Qed.

(** The whole run: the world [w0] after the first clock reading, the
    attempted prefix [calls] of the sorted candidates, and how the report
    lists the executions. *)
Lemma execute_recovery_run (analysis : Analysis) (w : World) :
  let '(res, calls, _) := execute_recovery now executors analysis w in
  exists rest fails succ w1,
    sorted rank (candidate_actions analysis) = calls ++ rest
    /\ tries (now w).2 calls (fails ++ succ) w1
    /\ Forall failed_attempt fails
    /\ actions_failed res = fails
    /\ actions_executed res = succ
    /\ res_error_id res = an_error_id analysis
    /\ started_at res = (now w).1
    /\ ((succ = [] /\ rest = [] /\ recovery_success res = false)
        \/ (exists e, succ = [e] /\ ex_success e = true
                      /\ recovery_success res = true)).
Proof.
  unfold execute_recovery. destruct (now w) as [started w0].
  destruct (candidate_actions analysis) as [|a0 acts0] eqn:Hc.
  { exists [], [], [], w0. simpl. split_and!; try done; [constructor|].
    by left. }
  set (acts := sorted rank (a0 :: acts0)).
  destruct (run_actions_spec acts
              (initial_result analysis started) [] w0)
    as (tried & rest & fails & succ & res' & w1 & Hrun & Hacts & Htries
        & Hfails & Hf & Hx & Hid & Hst & _ & Hend).
  rewrite Hrun. destruct (now w1) as [completed w2].
  simpl in Hf, Hx, Hid, Hst. simpl.
  exists rest, fails, succ, w1. split_and!; try done.
  destruct Hend as [(-> & -> & Hs & _)
                   | (e & a & tried0 & -> & -> & He & Hs & _)].
  - left. done.
  - right. by exists e.
Qed.


(** The ranks of a sorted list do not depend on the order in which the
    actions were supplied. *)
Lemma sorted_ranks_order_independent (l1 l2 : list ActionData) :
  l1 ≡ₚ l2 -> rank <$> sorted rank l1 = rank <$> sorted rank l2.
Proof.
  intros Hp.
  apply (StronglySorted_unique_strong Z.le).
  - intros x y _ _ ? ?. lia.
  - eapply StronglySorted_fmap; [|apply sorted_sorted]. done.
  - eapply StronglySorted_fmap; [|apply sorted_sorted]. done.
  - by rewrite !sorted_perm, Hp.
Qed.

(** C2. For every list of actions, [execute_recovery] attempts actions in
    ascending order of priority rank (CRITICAL 1, HIGH 2, MEDIUM 3, LOW 4),
    whatever the order in which they were supplied, and actions of equal
    rank in their original relative order. The order of the attempts is
    [order], the candidates rearranged in ascending rank with each rank kept
    in input order; it is the only such rearrangement, and its sequence of
    ranks is the same for every ordering of the input. The actions handed to
    [_execute_single_action] are [calls], with their executions listed in the
    report, failed ones first: [calls] is [order] up to and including the
    first action whose execution succeeds, and the whole of [order] when
    none does. *)
Theorem execute_recovery_priority_order (analysis : Analysis) (w : World) :
  let '(res, calls, _) := execute_recovery now executors analysis w in
  let candidates := candidate_actions analysis in
  let order := sorted rank candidates in
  order ≡ₚ candidates
  /\ StronglySorted (key_le rank) order
  /\ (forall k, filter (fun a => rank a = k) order
                = filter (fun a => rank a = k) candidates)
  /\ (forall l, StronglySorted (key_le rank) l ->
        (forall k, filter (fun a => rank a = k) l
                   = filter (fun a => rank a = k) candidates) ->
        l = order)
  /\ (forall other, other ≡ₚ candidates ->
        rank <$> sorted rank other = rank <$> order)
  /\ (forall p, _priority_to_number (priority_name p) = priority_value p)
  /\ exists rest w1,
       order = calls ++ rest
       /\ tries (now w).2 calls (actions_failed res ++ actions_executed res)
            w1
       /\ Forall failed_attempt (actions_failed res)
       /\ ((actions_executed res = [] /\ rest = [])
           \/ exists e, actions_executed res = [e] /\ ex_success e = true)
       /\ StronglySorted (key_le rank) calls
       /\ (forall k, exists later,
             filter (fun a => rank a = k) candidates
             = filter (fun a => rank a = k) calls ++ later).
Proof.
  pose proof (execute_recovery_run analysis w) as Hrun.
  destruct (execute_recovery now executors analysis w) as [[res calls] w'].
  destruct Hrun as (rest & fails & succ & w1 & Hsplit & Htries & Hfails
                    & Hf & Hx & _ & _ & Hend).
  simpl. split_and!.
  - apply sorted_perm.
  - apply sorted_sorted.
  - intros k. apply sorted_stable.
  - intros l Hl Hk. apply (stable_sort_unique rank); [done|apply sorted_sorted|].
    intros k. by rewrite sorted_stable.
  - intros other Hp. by apply sorted_ranks_order_independent.
  - by intros [].
  - exists rest, w1. rewrite Hf, Hx. split_and!; try done.
    + destruct Hend as [(-> & -> & _) | (e & -> & He & _)];
        [by left | right; by exists e].
    + eapply StronglySorted_app_1_l. rewrite <- Hsplit. apply sorted_sorted.
    + intros k. exists (filter (fun a => rank a = k) rest).
      by rewrite <- (sorted_stable rank k), Hsplit, filter_app.
Qed.

(** C6. When the strategy executor of an action raises an exception with
    message [msg], [_execute_single_action] catches it and returns a failed
    execution that carries [msg]; the loop of [execute_recovery] appends that
    execution to the failed list and goes on with the next candidate, so it
    is in the failed list of the final report. In every run the executions
    that captured an error are in the failed list and none is in the
    executed list. [execute_recovery] itself has no exceptional outcome: it
    returns a report for every behaviour of the executors. *)
Theorem executor_exception_is_recorded
    (a : ActionData) (rest : list ActionData) (res : Result)
    (calls : list ActionData) (w w1 : World) (msg : string) :
  route executors a (now w).2 = (Raised msg, w1) ->
  let e := captured a (now w).1 msg in
  single a w = (e, w1)
  /\ run_actions now executors (a :: rest) res calls w
     = run_actions now executors rest (record_failure res e)
         (calls ++ [a]) w1
  /\ e ∈ actions_failed
           (run_actions now executors (a :: rest) res calls w).1.1
  /\ (forall analysis v,
        let '(r, _, _) := execute_recovery now executors analysis v in
        Forall (fun x => ex_error x = None) (actions_executed r)
        /\ forall x, x ∈ actions_failed r ++ actions_executed r ->
                     is_Some (ex_error x) -> x ∈ actions_failed r).
Proof.
  intros Hroute e.
  assert (single a w = (e, w1)) as Hsingle.
  { unfold _execute_single_action. destruct (now w) as [t w0].
    simpl in Hroute. by rewrite Hroute. }
  assert (run_actions now executors (a :: rest) res calls w
          = run_actions now executors rest (record_failure res e)
              (calls ++ [a]) w1) as Hstep.
  { simpl. by rewrite Hsingle. }
  split_and!; try done.
  - rewrite Hstep.
    destruct (run_actions_spec rest (record_failure res e)
                (calls ++ [a]) w1)
      as (? & ? & fails & ? & res' & w' & Hrun & _ & _ & _ & Hf & _).
    rewrite Hrun. simpl in *. rewrite Hf.
    apply elem_of_app. left. apply elem_of_app. right. left.
  - intros analysis v.
    pose proof (execute_recovery_run analysis v) as Hrun.
    destruct (execute_recovery now executors analysis v) as [[r cs] v'].
    destruct Hrun as (rest' & fails & succ & v1 & _ & Htries & _
                      & Hf & Hx & _ & _ & Hend).
    pose proof (attempts_error_failed _ _ _ _ Htries) as Herr.
    rewrite Hf, Hx.
    assert (Forall (fun x => ex_error x = None) succ) as Hnone.
    { destruct Hend as [(-> & _) | (x & -> & Hx1 & _)]; [constructor|].
      apply Forall_app in Herr as [_ Herr].
      apply Forall_cons in Herr as [Herr _].
      constructor; [|constructor].
      destruct (ex_error x) eqn:Hex; [|done].
      unfold failed_attempt in Herr.
      rewrite Herr in Hx1 by (by eexists). done. }
    split; [done|].
    intros x Hin [m Hm]. apply elem_of_app in Hin as [Hin|Hin]; [done|].
    rewrite Forall_forall in Hnone. specialize (Hnone x Hin). congruence.
Qed.

(** C10. With an analysis whose list of recovery actions is absent or empty,
    [execute_recovery] reads the clock once and returns: no strategy
    executor is called, the executed and failed lists are empty,
    [recovery_success] is false and the message is "No recovery actions
    available". *)
Theorem execute_recovery_without_actions (analysis : Analysis) (w : World) :
  an_recovery_actions analysis = None
  \/ an_recovery_actions analysis = Some [] ->
  execute_recovery now executors analysis w
  = ({| res_error_id := an_error_id analysis;
        started_at := (now w).1;
        actions_executed := [];
        actions_failed := [];
        recovery_success := false;
        recovery_message := "No recovery actions available";
        completed_at := None |},
     [], (now w).2).
Proof.
  intros Hempty. unfold execute_recovery, candidate_actions.
  destruct (now w) as [started w0].
  by destruct Hempty as [-> | ->].
Qed.

End RecoveryFacts.

(** ** [ErrorAnalyzer] *)

Section AnalyzerFacts.

Variable log : ErrorLog.

(** The keys of [ERROR_RECOVERY_MAP]. *)
Lemma table_lookup_None :
  error_type log ∉ ["DatabaseError"; "TimeoutError"; "MemoryError";
                    "ConnectionError"; "ValidationError";
                    "AuthenticationError"; "APIError";
                    "ServiceUnavailableError"] ->
  ERROR_RECOVERY_MAP !! error_type log = None.
Proof. intros Hn. by apply not_elem_of_list_to_map_1. Qed.

Lemma table_lookup_Some (l : list RecoveryStrategy) :
  ERROR_RECOVERY_MAP !! error_type log = Some l -> (length l <= 3)%nat.
Proof.
  intros Hl. apply elem_of_list_to_map_2 in Hl.
  repeat (apply elem_of_cons in Hl as [[= _ ->]|Hl]; [simpl; lia|]).
  by apply elem_of_nil in Hl.
Qed.

Lemma recovery_strategies_short :
  (length (_get_recovery_strategies log) <= 3)%nat.
Proof.
  unfold _get_recovery_strategies.
  destruct (ERROR_RECOVERY_MAP !! error_type log) as [l|] eqn:Hl; simpl;
    [by eapply table_lookup_Some | lia].
Qed.

(** The loop of [_generate_recovery_actions] keeps the order of the
    strategies and numbers them from [idx]. *)
Lemma generate_from_lookup (clock : nat -> datetime) (c : Q)
    (strategies : list RecoveryStrategy) :
  forall (idx k : nat),
    generate_from log clock c idx strategies !! k
    = make_action log clock c (idx + k) <$> strategies !! k.
Proof.
  induction strategies as [|s strategies IH]; intros idx k; [done|].
  destruct k as [|k]; simpl.
  - by rewrite Nat.add_0_r.
  - rewrite IH. by replace (S idx + k)%nat with (idx + S k)%nat by lia.
Qed.

Lemma generate_from_strategies (clock : nat -> datetime) (c : Q)
    (strategies : list RecoveryStrategy) (idx : nat) :
  ad_strategy <$> (action_entry <$> generate_from log clock c idx strategies)
  = strategy_value <$> strategies.
Proof.
  revert idx. induction strategies as [|s strategies IH]; intros idx;
    [done|]. simpl. by rewrite IH.
Qed.

(** C3. For each category of the table, [_get_recovery_strategies] returns
    the strategies of its entry, in the order of the entry; for every other
    category it returns [retry, fallback] in that order. The predicted
    strategies and the recovery actions of the analysis follow the same
    order. *)
Theorem recovery_strategies_follow_table :
  (error_type log = "DatabaseError" ->
   _get_recovery_strategies log
   = [POOL_INCREASE; TIMEOUT_INCREASE; CACHE_CLEAR])
  /\ (error_type log = "TimeoutError" ->
      _get_recovery_strategies log
      = [TIMEOUT_INCREASE; RESOURCE_SCALE; CACHE_CLEAR])
  /\ (error_type log = "MemoryError" ->
      _get_recovery_strategies log
      = [RESOURCE_SCALE; CACHE_CLEAR; QUEUE_PRIORITY])
  /\ (error_type log = "ConnectionError" ->
      _get_recovery_strategies log = [RETRY; CIRCUIT_BREAK; FALLBACK])
  /\ (error_type log = "ValidationError" ->
      _get_recovery_strategies log = [FALLBACK; REQUEST_THROTTLE])
  /\ (error_type log = "AuthenticationError" ->
      _get_recovery_strategies log = [RETRY; REQUEST_THROTTLE])
  /\ (error_type log = "APIError" ->
      _get_recovery_strategies log = [RETRY; TIMEOUT_INCREASE; FALLBACK])
  /\ (error_type log = "ServiceUnavailableError" ->
      _get_recovery_strategies log
      = [RETRY; CIRCUIT_BREAK; SERVICE_RESTART])
  /\ (error_type log ∉ ["DatabaseError"; "TimeoutError"; "MemoryError";
                        "ConnectionError"; "ValidationError";
                        "AuthenticationError"; "APIError";
                        "ServiceUnavailableError"] ->
      _get_recovery_strategies log = [RETRY; FALLBACK])
  /\ (forall t clock,
        let analysis := analyze_error (init t (Some log)) clock in
        an_predicted_recovery_strategies analysis
        = Some (strategy_value <$> _get_recovery_strategies log)
        /\ exists actions : list ActionData,
             an_recovery_actions analysis = Some actions
             /\ ad_strategy <$> actions
                = strategy_value <$> _get_recovery_strategies log).
Proof.
  split_and!; try (by unfold _get_recovery_strategies; intros ->).
  - intros Hn. unfold _get_recovery_strategies.
    by rewrite table_lookup_None.
  - intros t clock. simpl. split; [done|].
    eexists. split; [done|]. apply generate_from_strategies.
Qed.

(** The confidence is the capped sum of the base, the bonus of a known
    category and the bonus of the severity. *)
Lemma calculate_confidence_eq :
  _calculate_confidence log
  = Qmin 0.95
      ((if bool_decide (is_Some (ERROR_RECOVERY_MAP !! error_type log))
        then 0.5 + 0.2 else 0.5)
       + default 0 (severity_multipliers !! severity log))%Q.
Proof. done. Qed.

(** The bound of C4 on the binary64 numbers of the source: for a critical
    error the confidence is the binary64 number 0.75 or the one nearest to
    0.95, as in the rational model. *)
Lemma critical_confidence_binary64 :
  severity log = "critical" ->
  (0.75 <=? _calculate_confidence_binary64 log)%float = true
  /\ (_calculate_confidence_binary64 log = 0.75%float
      \/ _calculate_confidence_binary64 log = 0.95%float).
Proof.
  intros Hs. unfold _calculate_confidence_binary64. rewrite Hs.
  destruct (bool_decide _); vm_compute; auto.
Qed.

(** C4. For an error whose severity is "critical", whatever its category and
    its frequency, the analysis matches the pattern [critical_error], its
    recommended priority is CRITICAL, and its confidence is at least 0.75. *)
Theorem critical_severity_classification
    (t : datetime) (clock : nat -> datetime) :
  severity log = "critical" ->
  let analysis := analyze_error (init t (Some log)) clock in
  an_pattern_match analysis = Some (Some "critical_error")
  /\ an_recommended_priority analysis = Some "CRITICAL"
  /\ an_ml_confidence analysis = Some (_calculate_confidence log)
  /\ (0.75 <= _calculate_confidence log)%Q.
Proof.
  intros Hs. simpl. unfold _detect_pattern. rewrite Hs. simpl.
  split_and!; try done.
  rewrite calculate_confidence_eq, Hs.
  by destruct (bool_decide _).
Qed.

(** The confidence of the action generated for the strategy at position [k],
    for any list of strategies. *)
Lemma generated_confidence (clock : nat -> datetime) (c : Q)
    (strategies : list RecoveryStrategy) (k : nat) (a : RecoveryAction) :
  _generate_recovery_actions log clock strategies c !! k = Some a ->
  confidence a = (c * (1 - inject_Z (Z.of_nat k) * 0.1))%Q
  /\ (k < length strategies)%nat.
Proof.
  unfold _generate_recovery_actions. rewrite generate_from_lookup.
  destruct (strategies !! k) as [s|] eqn:Hk; [|done].
  intros [= <-]. split; [done|]. by eapply lookup_lt_Some.
Qed.

Lemma declining_factor (c : Q) (j k : nat) :
  (0 <= c)%Q -> (j <= k)%nat ->
  (c * (1 - inject_Z (Z.of_nat k) * 0.1)
   <= c * (1 - inject_Z (Z.of_nat j) * 0.1))%Q.
Proof.
  intros Hc Hjk.
  assert (inject_Z (Z.of_nat j) <= inject_Z (Z.of_nat k))%Q as Hle
    by (rewrite <- Zle_Qle; lia).
  nra.
Qed.

Lemma nonnegative_factor (c : Q) (k : nat) :
  (0 <= c)%Q -> (k <= 10)%nat ->
  (0 <= c * (1 - inject_Z (Z.of_nat k) * 0.1))%Q.
Proof.
  intros Hc Hk.
  assert (inject_Z (Z.of_nat k) <= inject_Z 10)%Q as Hle
    by (rewrite <- Zle_Qle; lia).
  change (inject_Z 10) with 10%Q in Hle.
  nra.
Qed.

(** The bounds of C5 on the binary64 numbers of the source, for each
    confidence that the analyzer can compute and the positions 0, 1 and 2
    that a list of candidate strategies has. *)
Lemma declining_confidence_binary64 (k : nat) :
  (k < 3)%nat ->
  let c := _calculate_confidence_binary64 log in
  (0 <=? declined_binary64 c k)%float = true
  /\ (declined_binary64 c (S k) <=? declined_binary64 c k)%float = true.
Proof.
  intros Hk c. subst c. unfold _calculate_confidence_binary64.
  assert (k = 0 \/ k = 1 \/ k = 2)%nat as [-> | [-> | ->]] by lia;
    destruct (bool_decide _);
    (destruct (severity_multipliers_binary64 !! severity log) as [q|] eqn:Hq;
     [apply elem_of_list_to_map_2 in Hq;
      repeat (apply elem_of_cons in Hq as [[= _ ->]|Hq];
              [by vm_compute|]);
      by apply elem_of_nil in Hq
     | by vm_compute]).
Qed.

(** C5. For a base confidence [c >= 0] and the candidate strategies of an
    error, the action generated for the strategy at position [k] (counted
    from 0) has confidence [c * (1 - 0.1 * k)]; this value is not negative
    and is at most the confidence of every action at an earlier position. *)
Theorem candidate_confidence_declines
    (clock : nat -> datetime) (c : Q) (k : nat) (a : RecoveryAction) :
  (0 <= c)%Q ->
  let actions :=
    _generate_recovery_actions log clock (_get_recovery_strategies log) c in
  actions !! k = Some a ->
  (confidence a == c * (1 - 0.1 * inject_Z (Z.of_nat k)))%Q
  /\ (0 <= confidence a)%Q
  /\ (forall j b, (j <= k)%nat -> actions !! j = Some b ->
                  (confidence a <= confidence b)%Q).
Proof.
  intros Hc actions Ha.
  apply generated_confidence in Ha as [-> Hk].
  pose proof recovery_strategies_short as Hshort.
  split_and!.
  - ring.
  - apply nonnegative_factor; [done | lia].
  - intros j b Hj Hb. apply generated_confidence in Hb as [-> _].
    by apply declining_factor.
Qed.

(** The same on the entries of the analysis, whose base confidence is
    [ml_confidence]. *)
Lemma analysis_confidence_declines
    (t : datetime) (clock : nat -> datetime) (k : nat) :
  let analysis := analyze_error (init t (Some log)) clock in
  forall entries d,
    an_recovery_actions analysis = Some entries ->
    entries !! k = Some d ->
    (ad_confidence d
     == _calculate_confidence log * (1 - 0.1 * inject_Z (Z.of_nat k)))%Q
    /\ (0 <= ad_confidence d)%Q.
Proof.
  intros analysis entries d [= <-] Hd.
  rewrite list_lookup_fmap in Hd.
  destruct (_ !! k) as [a|] eqn:Ha; [|done].
  injection Hd as <-. simpl.
  assert (0 <= _calculate_confidence log)%Q as Hc.
  { rewrite calculate_confidence_eq. apply Q.min_glb; [done|].
    assert (0 <= default 0 (severity_multipliers !! severity log))%Q.
    { destruct (severity_multipliers !! severity log) as [q|] eqn:Hq;
        [|done].
      apply elem_of_list_to_map_2 in Hq.
      repeat (apply elem_of_cons in Hq as [[= _ ->]|Hq]; [done|]).
      by apply elem_of_nil in Hq. }
    destruct (bool_decide _); lra. }
  apply generated_confidence in Ha as [-> Hk].
  pose proof recovery_strategies_short as Hshort.
  split; [ring | apply nonnegative_factor; [done | lia]].
Qed.

(** The bonus of a severity that is not a key of [severity_multipliers]. *)
Lemma unknown_severity_bonus (e : ErrorLog) :
  severity e ∉ ["critical"; "high"; "medium"; "low"] ->
  severity_multipliers !! severity e = None.
Proof. intros Hn. by apply not_elem_of_list_to_map_1. Qed.

Lemma confidence_bounds :
  (0.5 <= _calculate_confidence log)%Q
  /\ (_calculate_confidence log <= 0.95)%Q.
Proof.
  rewrite calculate_confidence_eq.
  assert (0 <= default 0 (severity_multipliers !! severity log))%Q as Hb.
  { destruct (severity_multipliers !! severity log) as [q|] eqn:Hq;
      [|done].
    apply elem_of_list_to_map_2 in Hq.
    repeat (apply elem_of_cons in Hq as [[= _ ->]|Hq]; [done|]).
    by apply elem_of_nil in Hq. }
  split; [|apply Q.le_min_l].
  apply Q.min_glb; [done|].
  destruct (bool_decide _); lra.
Qed.

(** C7, as the code has it. [analyze_error] returns a full analysis for
    every error, whatever its severity string. A severity that is none of
    "critical", "high", "medium" and "low" adds nothing to the confidence,
    as "low" does and unlike "medium", which adds 0.05; its actions get the
    priorities that the actions of a "medium" error get (MEDIUM for the first
    candidate, LOW for the others), and its pattern and recommended priority
    are those of a "medium" error. *)
Theorem unknown_severity_treatment (t : datetime) (clock : nat -> datetime) :
  severity log ∉ ["critical"; "high"; "medium"; "low"] ->
  let analysis := analyze_error (init t (Some log)) clock in
  let as_medium :=
    analyze_error (init t (Some (with_severity log "medium"))) clock in
  an_ml_confidence analysis = Some (_calculate_confidence log)
  /\ is_Some (an_recommended_priority analysis)
  /\ is_Some (an_recovery_actions analysis)
  /\ (_calculate_confidence log
      == _calculate_confidence (with_severity log "low"))%Q
  /\ (_calculate_confidence (with_severity log "medium")
      == Qmin 0.95 (_calculate_confidence log + 0.05))%Q
  /\ (forall s idx,
        _get_action_priority log s idx
        = _get_action_priority (with_severity log "medium") s idx)
  /\ (forall s idx,
        _get_action_priority log s idx
        = if (idx =? 0)%nat then MEDIUM else LOW)
  /\ an_pattern_match analysis = an_pattern_match as_medium
  /\ an_recommended_priority analysis = an_recommended_priority as_medium.
Proof.
  intros Hn analysis as_medium.
  assert (severity log <> "critical" /\ severity log <> "high") as [Hc Hh].
  { split; intros Heq; apply Hn; rewrite Heq;
      [left | right; left]. }
  apply String.eqb_neq in Hc, Hh.
  assert (_calculate_confidence log
          = Qmin 0.95
              ((if bool_decide
                      (is_Some (ERROR_RECOVERY_MAP !! error_type log))
                then 0.5 + 0.2 else 0.5) + 0)%Q) as Hconf.
  { rewrite calculate_confidence_eq. by rewrite unknown_severity_bonus. }
  split_and!; try done.
  - rewrite Hconf. unfold _calculate_confidence. simpl.
    by destruct (bool_decide _).
  - rewrite Hconf. unfold _calculate_confidence. simpl.
    by destruct (bool_decide _).
  - intros s idx. unfold _get_action_priority. simpl. by rewrite Hc, Hh.
  - intros s idx. unfold _get_action_priority. by rewrite Hc, Hh.
  - unfold analysis, as_medium. simpl. unfold _detect_pattern. simpl.
    by rewrite Hc.
  - unfold analysis, as_medium. simpl. unfold _detect_pattern. simpl.
    by rewrite Hc.
Qed.

End AnalyzerFacts.

(** The entries of the analysis do not keep the [created_at] of the actions,
    the only place where the clock readings of the loop go. *)
Lemma action_entries_clock_independent (log : ErrorLog)
    (clock1 clock2 : nat -> datetime) (c : Q)
    (strategies : list RecoveryStrategy) (idx : nat) :
  action_entry <$> generate_from log clock1 c idx strategies
  = action_entry <$> generate_from log clock2 c idx strategies.
Proof.
  revert idx. induction strategies as [|s strategies IH]; intros idx;
    [done|]. simpl. by rewrite IH.
Qed.

Lemma analyze_error_clock_independent (self : ErrorAnalyzer.t)
    (clock1 clock2 : nat -> datetime) :
  analyze_error self clock1 = analyze_error self clock2.
Proof.
  unfold analyze_error. destruct (error_log self) as [log|]; [|done].
  unfold _generate_recovery_actions.
  by rewrite (action_entries_clock_independent log clock1 clock2).
Qed.

(** C8, as the code has it. The analysis is a function of the error and of
    the clock reading taken when the analyzer object was built: two analyses
    of the same error agree on every entry but [analysis_timestamp], which
    holds that reading, and they are equal when the two readings are. The
    clock readings taken while the actions are generated do not reach the
    analysis, and nothing is drawn at random. *)
Theorem analyze_error_deterministic
    (log : option ErrorLog) (t1 t2 : datetime)
    (clock1 clock2 : nat -> datetime) :
  let a1 := analyze_error (init t1 log) clock1 in
  let a2 := analyze_error (init t2 log) clock2 in
  an_error_id a1 = an_error_id a2
  /\ an_error_type a1 = an_error_type a2
  /\ an_service a1 = an_service a2
  /\ an_severity a1 = an_severity a2
  /\ an_timestamp a1 = an_timestamp a2
  /\ an_predicted_recovery_strategies a1
     = an_predicted_recovery_strategies a2
  /\ an_recovery_actions a1 = an_recovery_actions a2
  /\ an_ml_confidence a1 = an_ml_confidence a2
  /\ an_pattern_match a1 = an_pattern_match a2
  /\ an_recommended_priority a1 = an_recommended_priority a2
  /\ an_analysis_timestamp a1 = (fun _ => t1) <$> log
  /\ an_analysis_timestamp a2 = (fun _ => t2) <$> log
  /\ (t1 = t2 -> a1 = a2).
Proof.
  intros a1 a2. subst a1 a2.
  rewrite (analyze_error_clock_independent _ clock2 clock1).
  destruct log as [log|]; simpl; [|done].
  split_and!; try done. by intros ->.
Qed.

(** ** [NotificationService] *)

Section NotificationFacts.

Import NotificationService.

Variables EmailNotificationChannel SlackNotificationChannel
  SMSNotificationChannel WebhookNotificationChannel : Channel.

Local Abbreviation all_channels :=
  (channels EmailNotificationChannel SlackNotificationChannel
     SMSNotificationChannel WebhookNotificationChannel).

(** The three channel lists that [notify_developers] can select. *)
Lemma notify_channels_cases (error : ErrorLog) :
  notify_channels error = ["email"; "slack"; "sms"]
  \/ notify_channels error = ["email"; "slack"]
  \/ notify_channels error = ["email"].
Proof.
  unfold notify_channels.
  destruct (preferred_channels !! severity error) as [l|] eqn:Hl;
    [|by right; right].
  apply elem_of_list_to_map_2 in Hl.
  repeat (apply elem_of_cons in Hl as [[= _ ->]|Hl]; [auto|]).
  by apply elem_of_nil in Hl.
Qed.

Lemma notify_channels_known (error : ErrorLog) :
  Forall (fun name => is_Some (all_channels !! name)) (notify_channels error).
Proof.
  destruct (notify_channels_cases error) as [-> | [-> | ->]];
    repeat constructor; by eexists.
Qed.

(** C9, as the code has it. The channels are selected by the severity of
    the error alone: email, Slack and SMS for "critical", email and Slack
    for "high", email only for "medium", "low" and any other severity.
    Every selected channel is one of the configured channels; the webhook
    channel, although configured, is never selected. *)
Theorem channels_selected_by_severity (error : ErrorLog) :
  (severity error = "critical" ->
   notify_channels error = ["email"; "slack"; "sms"])
  /\ (severity error = "high" -> notify_channels error = ["email"; "slack"])
  /\ (severity error = "medium" -> notify_channels error = ["email"])
  /\ (severity error = "low" -> notify_channels error = ["email"])
  /\ (severity error ∉ ["critical"; "high"] ->
      notify_channels error = ["email"])
  /\ (forall other, severity other = severity error ->
                    notify_channels other = notify_channels error)
  /\ (forall name, name ∈ notify_channels error ->
                   is_Some (all_channels !! name))
  /\ ("webhook" ∉ notify_channels error)
  /\ is_Some (all_channels !! "webhook").
Proof.
  split_and!.
  - unfold notify_channels. by intros ->.
  - unfold notify_channels. by intros ->.
  - unfold notify_channels. by intros ->.
  - unfold notify_channels. by intros ->.
  - intros Hn. unfold notify_channels.
    destruct (preferred_channels !! severity error) as [l|] eqn:Hl; [|done].
    apply elem_of_list_to_map_2 in Hl.
    apply elem_of_cons in Hl as [[= Hs _]|Hl];
      [exfalso; apply Hn; rewrite Hs; left|].
    apply elem_of_cons in Hl as [[= Hs _]|Hl];
      [exfalso; apply Hn; rewrite Hs; right; left|].
    repeat (apply elem_of_cons in Hl as [[= _ ->]|Hl]; [done|]).
    by apply elem_of_nil in Hl.
  - intros other Hs. unfold notify_channels. by rewrite Hs.
  - intros name Hin. pose proof (notify_channels_known error) as Hk.
    rewrite Forall_forall in Hk. by apply Hk.
  - destruct (notify_channels_cases error) as [-> | [-> | ->]];
      apply (bool_decide_unpack _); by vm_compute.
  - by eexists.
Qed.

End NotificationFacts.

(** ** The claims on the scenarios *)

Section ScenarioFacts.

Import Scenarios NotificationService.



(** The end-to-end scenario of a connection error of high severity: the
    retry fails, the circuit breaker succeeds and the fallback is not
    attempted. *)
Example connection_error_recovery :
  let '(res, calls, _) :=
    execute_recovery tick retry_fails (analysis_of connection_error) 0%nat in
  ex_strategy <$> actions_failed res = ["retry"]
  /\ ex_strategy <$> actions_executed res = ["circuit_break"]
  /\ recovery_success res = true
  /\ ad_strategy <$> calls = ["retry"; "circuit_break"].
Proof. vm_compute. done. Qed.

(** The end-to-end scenario of an error of unknown category and low
    severity: the default candidates and the base confidence. *)
Example unknown_error_analysis :
  an_predicted_recovery_strategies (analysis_of unknown_error)
  = Some ["retry"; "fallback"]
  /\ (_calculate_confidence unknown_error == 0.5)%Q
  /\ ad_priority <$> candidate_actions (analysis_of unknown_error)
     = ["MEDIUM"; "LOW"].
Proof. vm_compute. done. Qed.


Lemma execute_recovery_priority_order_witness :
  let '(res, calls, _) :=
    execute_recovery tick all_raise shuffled_analysis 0%nat in
  ad_strategy <$> calls
  = ["retry"; "timeout_increase"; "cache_clear"; "circuit_break";
     "fallback"]
  /\ StronglySorted (key_le rank) calls
  /\ ex_strategy <$> actions_failed res = ad_strategy <$> calls.
Proof.
  pose proof (execute_recovery_priority_order tick all_raise
                shuffled_analysis 0%nat) as H.
  destruct (execute_recovery tick all_raise shuffled_analysis 0%nat)
    as [[res calls] w'] eqn:Hrun.
  destruct H as (_ & _ & _ & _ & _ & _ & rest & w1 & _ & _ & _ & _
                 & Hsorted & _).
  vm_compute in Hrun. injection Hrun as <- <- <-.
  split; [reflexivity|]. split; [exact Hsorted | reflexivity].
Defined.

Lemma recovery_strategies_follow_table_witness :
  error_type connection_error = "ConnectionError"
  /\ _get_recovery_strategies connection_error
     = [RETRY; CIRCUIT_BREAK; FALLBACK]
  /\ _get_recovery_strategies unknown_error = [RETRY; FALLBACK].
Proof.
  split; [reflexivity|]. split.
  - destruct (recovery_strategies_follow_table connection_error)
      as (_ & _ & _ & H & _).
    exact (H eq_refl).
  - destruct (recovery_strategies_follow_table unknown_error)
      as (_ & _ & _ & _ & _ & _ & _ & _ & H & _).
    apply H. apply (bool_decide_unpack _). vm_compute. exact I.
Defined.

Lemma critical_severity_classification_witness :
  severity critical_error = "critical"
  /\ an_recommended_priority (analysis_of critical_error) = Some "CRITICAL"
  /\ (0.75 <= _calculate_confidence critical_error)%Q.
Proof.
  split; [reflexivity|].
  destruct (critical_severity_classification critical_error
              1700000400%Z (fun _ => 1700000400%Z) eq_refl)
    as (_ & Hp & _ & Hc).
  split; [exact Hp | exact Hc].
Defined.

Lemma candidate_confidence_declines_witness :
  let actions :=
    _generate_recovery_actions connection_error (fun _ => 0%Z)
      (_get_recovery_strategies connection_error) 0.85 in
  (0 <= 0.85)%Q
  /\ (exists a, actions !! 2%nat = Some a
                /\ (confidence a == 0.85 * (1 - 0.1 * 2))%Q
                /\ (0 <= confidence a)%Q).
Proof.
  intros actions.
  assert (0 <= 0.85)%Q as Hc by (vm_compute; discriminate).
  split; [exact Hc|].
  destruct (actions !! 2%nat) as [a|] eqn:Ha; [|vm_compute in Ha; discriminate].
  exists a. split; [reflexivity|].
  destruct (candidate_confidence_declines connection_error (fun _ => 0%Z)
              0.85 2 a Hc Ha) as (Heq & Hpos & _).
  split; [exact Heq | exact Hpos].
Defined.

Lemma executor_exception_is_recorded_witness :
  let a := mkActionData "retry" "HIGH" 0.85 0.75 [] in
  route all_raise a (tick 0%nat).2
  = (Raised "'NoneType' object has no attribute 'service'", 1%nat)
  /\ _execute_single_action tick all_raise a 0%nat
     = (captured a 0%Z "'NoneType' object has no attribute 'service'",
        1%nat).
Proof.
  intros a.
  assert (route all_raise a (tick 0%nat).2
          = (Raised "'NoneType' object has no attribute 'service'", 1%nat))
    as Hroute by reflexivity.
  split; [exact Hroute|].
  destruct (executor_exception_is_recorded tick all_raise a []
              (initial_result empty_analysis 0%Z) [] 0%nat 1%nat
              "'NoneType' object has no attribute 'service'" Hroute)
    as (Hsingle & _).
  exact Hsingle.
Defined.

Lemma unknown_severity_treatment_witness :
  (severity info_error ∉ ["critical"; "high"; "medium"; "low"])
  /\ (_calculate_confidence info_error
      == _calculate_confidence (with_severity info_error "low"))%Q
  /\ _get_action_priority info_error RETRY 0 = MEDIUM.
Proof.
  assert (severity info_error ∉ ["critical"; "high"; "medium"; "low"])
    as Hn by (apply (bool_decide_unpack _); vm_compute; exact I).
  split; [exact Hn|].
  destruct (unknown_severity_treatment info_error 0%Z (fun _ => 0%Z) Hn)
    as (_ & _ & _ & Hlow & _ & _ & Hprio & _).
  split; [exact Hlow | exact (Hprio RETRY 0%nat)].
Defined.

Lemma analyze_error_deterministic_witness :
  analyze_error (init 5%Z (Some connection_error)) (fun _ => 6%Z)
  = analyze_error (init 5%Z (Some connection_error)) (fun _ => 7%Z).
Proof.
  destruct (analyze_error_deterministic (Some connection_error) 5%Z 5%Z
              (fun _ => 6%Z) (fun _ => 7%Z))
    as (_ & _ & _ & _ & _ & _ & _ & _ & _ & _ & _ & _ & Heq).
  exact (Heq eq_refl).
Defined.

Lemma channels_selected_by_severity_witness :
  severity critical_error = "critical"
  /\ notify_channels critical_error = ["email"; "slack"; "sms"]
  /\ severity connection_error = "high"
  /\ notify_channels connection_error = ["email"; "slack"].
Proof.
  destruct (channels_selected_by_severity delivers delivers delivers delivers
              critical_error) as (Hcrit & _).
  destruct (channels_selected_by_severity delivers delivers delivers delivers
              connection_error) as (_ & Hhigh & _).
  split; [reflexivity|]. split; [exact (Hcrit eq_refl)|].
  split; [reflexivity | exact (Hhigh eq_refl)].
Defined.

Lemma execute_recovery_without_actions_witness :
  (an_recovery_actions empty_analysis = None
   \/ an_recovery_actions empty_analysis = Some [])
  /\ execute_recovery tick all_raise empty_analysis 0%nat
     = ({| res_error_id := None;
           started_at := 0%Z;
           actions_executed := [];
           actions_failed := [];
           recovery_success := false;
           recovery_message := "No recovery actions available";
           completed_at := None |}, [], 1%nat).
Proof.
  split; [by left|].
  apply (execute_recovery_without_actions tick all_raise empty_analysis
           0%nat).
  by left.
Defined.

(** C7, as stated, fails: an error of severity "info" does not get the
    confidence of the same error with severity "medium". *)
Lemma unknown_severity_is_not_medium :
  ~ (_calculate_confidence info_error
     == _calculate_confidence (with_severity info_error "medium"))%Q.
Proof. vm_compute. discriminate. Qed.

(** C8, as stated, fails: two analyzers built for the same error at
    different times return different analyses. *)
Lemma analysis_depends_on_clock :
  analyze_error (init 0%Z (Some connection_error)) (fun _ => 0%Z)
  <> analyze_error (init 1%Z (Some connection_error)) (fun _ => 0%Z).
Proof.
  intros Heq. apply (f_equal an_analysis_timestamp) in Heq.
  simpl in Heq. discriminate.
Qed.

(** C9, as stated, fails: for a critical error the webhook channel is
    configured and is not among the selected channels. *)
Lemma critical_error_skips_webhook :
  severity critical_error = "critical"
  /\ is_Some (channels delivers delivers delivers delivers !! "webhook")
  /\ ("webhook" ∉ notify_channels critical_error).
Proof.
  split; [reflexivity|]. split; [by eexists|].
  apply (bool_decide_unpack _). vm_compute. exact I.
Qed.

End ScenarioFacts.

(** * Further properties of the engine *)

(** ** The analysis as input of the executor *)

Section PipelineFacts.

Import StrategyDispatch.

Context {World : Type}.
Variable now : World -> datetime * World.

(** A list in ascending order of the key is left as it is. *)
Lemma sorted_of_sorted {A : Type} (key : A -> Z) (l : list A) :
  StronglySorted (key_le key) l -> sorted key l = l.
Proof.
  induction 1 as [|x l Hl IH Hx]; simpl; [done|].
  rewrite IH. destruct l as [|y l]; [done|]. simpl.
  apply Forall_cons in Hx as [Hxy _]. unfold key_le in Hxy.
  destruct (Z.leb_spec (key x) (key y)); [done | lia].
Qed.

Lemma priority_number_of_name (p : RecoveryPriority) :
  _priority_to_number (priority_name p) = priority_value p.
Proof. by destruct p. Qed.

(** The priority of an action does not rise with its position. *)
Lemma action_priority_monotone (log : ErrorLog) (s s' : RecoveryStrategy)
    (i j : nat) :
  (i <= j)%nat ->
  (priority_value (_get_action_priority log s i)
   <= priority_value (_get_action_priority log s' j))%Z.
Proof.
  intros Hij. unfold _get_action_priority.
  destruct (String.eqb (severity log) "critical"); [done|].
  destruct (Nat.eqb_spec i 0) as [->|Hi], (Nat.eqb_spec j 0) as [->|Hj];
    destruct (String.eqb (severity log) "high"); simpl; lia.
Qed.

Lemma generated_entries_ranks (log : ErrorLog) (clock : nat -> datetime)
    (c : Q) (strategies : list RecoveryStrategy) (idx : nat) :
  Forall (fun d => exists s j, (idx <= j)%nat
            /\ rank d = priority_value (_get_action_priority log s j))
    (action_entry <$> generate_from log clock c idx strategies).
Proof.
  revert idx. induction strategies as [|s strategies IH]; intros idx;
    simpl; constructor.
  - exists s, idx. split; [lia|]. apply priority_number_of_name.
  - eapply Forall_impl; [apply (IH (S idx))|].
    intros d (s' & j & Hj & Hd). exists s', j. split; [lia | done].
Qed.

Lemma generated_entries_sorted (log : ErrorLog) (clock : nat -> datetime)
    (c : Q) (strategies : list RecoveryStrategy) (idx : nat) :
  StronglySorted (key_le rank)
    (action_entry <$> generate_from log clock c idx strategies).
Proof.
  revert idx. induction strategies as [|s strategies IH]; intros idx;
    simpl; constructor; [apply IH|].
  eapply Forall_impl; [apply (generated_entries_ranks _ _ _ _ (S idx))|].
  intros d (s' & j & Hj & Hd). unfold key_le. rewrite Hd.
  unfold rank at 1. simpl. rewrite priority_number_of_name.
  apply action_priority_monotone. lia.
Qed.

(** The candidates of an analysis are the entries of its actions. *)
Lemma candidates_of_analysis (log : ErrorLog) (t : datetime)
    (clock : nat -> datetime) :
  candidate_actions (analyze_error (init t (Some log)) clock)
  = action_entry
      <$> generate_from log clock (_calculate_confidence log) 0
            (_get_recovery_strategies log).
Proof. done. Qed.

Lemma strategies_nonempty (log : ErrorLog) :
  exists s0 rest, _get_recovery_strategies log = s0 :: rest.
Proof.
  unfold _get_recovery_strategies.
  destruct (ERROR_RECOVERY_MAP !! error_type log) as [l|] eqn:Hl; simpl;
    [|by eexists _, _].
  apply elem_of_list_to_map_2 in Hl.
  repeat (apply elem_of_cons in Hl as [[= _ ->]|Hl]; [by eexists _, _|]).
  by apply elem_of_nil in Hl.
Qed.

(** X2. The actions of an analysis are generated in ascending order of
    priority rank, so that sorting them changes nothing: whatever the
    executors do, [execute_recovery] attempts the strategies of the category
    in the order of the table, without skipping any. The attempted actions
    [calls] are the first actions of the analysis, in their order; their
    executions are those of the report, the failed ones first; and the
    attempts end at the first execution that succeeds, or else with the last
    strategy of the table entry. *)
Theorem analysis_is_attempted_in_table_order
    (executors : Executors World) (log : ErrorLog) (t : datetime)
    (clock : nat -> datetime) (w : World) :
  let analysis := analyze_error (init t (Some log)) clock in
  sorted rank (candidate_actions analysis) = candidate_actions analysis
  /\ let '(res, calls, _) := execute_recovery now executors analysis w in
     exists rest w1,
       candidate_actions analysis = calls ++ rest
       /\ strategy_value <$> _get_recovery_strategies log
          = (ad_strategy <$> calls) ++ (ad_strategy <$> rest)
       /\ attempts now executors (now w).2 calls
            (actions_failed res ++ actions_executed res) w1
       /\ ex_strategy <$> (actions_failed res ++ actions_executed res)
          = ad_strategy <$> calls
       /\ Forall failed_attempt (actions_failed res)
       /\ ((actions_executed res = [] /\ rest = [])
           \/ exists e, actions_executed res = [e] /\ ex_success e = true)
       /\ calls <> [].
Proof.
  intros analysis.
  assert (sorted rank (candidate_actions analysis)
          = candidate_actions analysis) as Hsorted.
  { unfold analysis. rewrite candidates_of_analysis.
    apply sorted_of_sorted, generated_entries_sorted. }
  split; [done|].
  pose proof (execute_recovery_run now executors analysis w) as Hrun.
  destruct (execute_recovery now executors analysis w) as [[res calls] w'].
  destruct Hrun as (rest & fails & succ & w1 & Hsplit & Htries & Hfails
                    & Hf & Hx & _ & _ & Hend).
  rewrite Hsorted in Hsplit.
  assert (strategy_value <$> _get_recovery_strategies log
          = ad_strategy <$> candidate_actions analysis) as Hnames.
  { unfold analysis. rewrite candidates_of_analysis.
    symmetry. apply generate_from_strategies. }
  exists rest, w1. rewrite Hf, Hx. split_and!; try done.
  - by rewrite Hnames, Hsplit, fmap_app.
  - by eapply attempts_strategies.
  - destruct Hend as [(-> & -> & _) | (e & -> & He & _)];
      [by left | right; by exists e].
  - intros ->. apply attempts_length in Htries.
    destruct Hend as [(-> & -> & _) | (e & -> & _)].
    + destruct (strategies_nonempty log) as (s0 & ss & Hs).
      rewrite Hs, Hsplit in Hnames. done.
    + rewrite length_app in Htries. simpl in Htries. lia.
Qed.

Lemma success_rate_bounds (s : RecoveryStrategy) :
  (0.65 <= _estimate_success_rate s)%Q /\ (_estimate_success_rate s <= 0.95)%Q.
Proof. by destruct s. Qed.

(** X1. For every error, the confidence of the analysis lies between 0.5 and
    0.95; every recovery action of the analysis has a confidence between 0.4
    and 0.95 and an estimated success rate between 0.65 and 0.95. *)
Theorem analysis_scores_in_range
    (log : ErrorLog) (t : datetime) (clock : nat -> datetime)
    (d : ActionData) :
  d ∈ candidate_actions (analyze_error (init t (Some log)) clock) ->
  (0.5 <= _calculate_confidence log)%Q
  /\ (_calculate_confidence log <= 0.95)%Q
  /\ (0.4 <= ad_confidence d)%Q /\ (ad_confidence d <= 0.95)%Q
  /\ (0.65 <= ad_success_rate d)%Q /\ (ad_success_rate d <= 0.95)%Q.
Proof.
  rewrite candidates_of_analysis. intros Hd.
  apply list_elem_of_lookup in Hd as [k Hk].
  rewrite list_lookup_fmap in Hk.
  destruct (_ !! k) as [a|] eqn:Ha; [|done]. injection Hk as <-.
  pose proof (confidence_bounds log) as [Hlo Hhi].
  assert (estimated_success_rate a
          = _estimate_success_rate (strategy a)) as Hrate.
  { rewrite generate_from_lookup in Ha.
    destruct (_ !! k); [|done]. by injection Ha as <-. }
  apply (generated_confidence log) in Ha as [Hconf Hk].
  pose proof (recovery_strategies_short log) as Hshort.
  pose proof (success_rate_bounds (strategy a)) as [Hr1 Hr2].
  assert (0 <= inject_Z (Z.of_nat k))%Q as Hk0
    by (change 0%Q with (inject_Z 0); rewrite <- Zle_Qle; lia).
  assert (inject_Z (Z.of_nat k) <= 2)%Q as Hk2
    by (change 2%Q with (inject_Z 2); rewrite <- Zle_Qle; lia).
  simpl. rewrite Hconf, Hrate.
  split_and!; try done; nra.
Qed.

(** Each strategy value is routed to the executor of its strategy. *)
Lemma route_strategy_value (executors : Executors World)
    (s : RecoveryStrategy) (a : ActionData) (w : World) :
  ad_strategy a = strategy_value s ->
  route executors a w = executor_for executors s a w.
Proof. unfold route. intros ->. by destruct s. Qed.

(** X3. The values of [RecoveryStrategy] and the strategy names that
    [_execute_single_action] compares with agree: an action whose strategy is
    the value of a member is handed to the executor of that member, and every
    action of an analysis is such an action, so that the branch for an
    unknown strategy is not taken for it. *)
Theorem strategies_reach_their_executor
    (executors : Executors World) (log : ErrorLog) (t : datetime)
    (clock : nat -> datetime) (d : ActionData) (w : World) :
  d ∈ candidate_actions (analyze_error (init t (Some log)) clock) ->
  exists s, s ∈ _get_recovery_strategies log
            /\ ad_strategy d = strategy_value s
            /\ ad_strategy d ∈ routed_strategies
            /\ route executors d w = executor_for executors s d w.
Proof.
  rewrite candidates_of_analysis. intros Hd.
  apply list_elem_of_lookup in Hd as [k Hk].
  rewrite list_lookup_fmap, generate_from_lookup in Hk.
  destruct (_get_recovery_strategies log !! k) as [s|] eqn:Hs; [|done].
  injection Hk as <-. exists s. simpl.
  split_and!; try done.
  - by eapply list_elem_of_lookup_2.
  - destruct s; apply (bool_decide_unpack _); by vm_compute.
  - by apply route_strategy_value.
Qed.

(** With an error log, every executor of the source reports success and
    leaves the world as it is. *)
Lemma source_executor_succeeds (owner : ErrorLog) (s : RecoveryStrategy)
    (a : ActionData) (w : World) :
  exists r, executor_for (source_executors (Some owner)) s a w
            = (Returned r, w)
            /\ r_success r = Some true.
Proof. destruct s; by eexists. Qed.

(** Without an error log, no executor of the source reports success. *)
Lemma source_executor_raises (a : ActionData) (w : World) :
  failed_attempt
    (_execute_single_action now (source_executors None) a w).1.
Proof.
  unfold _execute_single_action, failed_attempt.
  destruct (now w) as [t w0].
  unfold route, source_executors, stub; simpl.
  repeat (destruct (String.eqb _ _); [done|]). done.
Qed.

(** The run of the executors of the source on an analysis. *)
Lemma first_candidate_succeeds
    (owner log : ErrorLog) (t : datetime) (clock : nat -> datetime)
    (w : World) :
  let '(res, calls, _) :=
    execute_recovery now (source_executors (Some owner))
      (analyze_error (init t (Some log)) clock) w in
  exists s0 e,
    head (_get_recovery_strategies log) = Some s0
    /\ recovery_success res = true
    /\ actions_failed res = []
    /\ actions_executed res = [e]
    /\ ex_strategy e = strategy_value s0
    /\ ex_success e = true
    /\ ex_error e = None
    /\ recovery_message res = "Recovery successful: " +:+ strategy_value s0
    /\ ad_strategy <$> calls = [strategy_value s0].
Proof.
  unfold execute_recovery. destruct (now w) as [started w0].
  pose proof (sorted_of_sorted rank _
                (generated_entries_sorted log clock
                   (_calculate_confidence log)
                   (_get_recovery_strategies log) 0)) as Hsorted.
  rewrite candidates_of_analysis, Hsorted.
  destruct (strategies_nonempty log) as (s0 & rest & Hs).
  rewrite Hs. cbn [generate_from]. rewrite !fmap_cons.
  cbn [run_actions]. unfold _execute_single_action.
  destruct (now w0) as [attempted w1].
  rewrite (route_strategy_value _ s0) by done.
  destruct (source_executor_succeeds owner s0
              (action_entry (make_action log clock
                               (_calculate_confidence log) 0 s0)) w1)
    as (r & -> & Hr).
  simpl. rewrite Hr. simpl. destruct (now w1) as [completed w2].
  exists s0, {| ex_strategy := strategy_value s0;
                ex_attempted_at := attempted;
                ex_success := true;
                ex_result := Some r;
                ex_error := None |}.
  done.
Qed.

(** That run reads the clock three times and does nothing else to the
    world. *)
Lemma first_candidate_world
    (owner log : ErrorLog) (t : datetime) (clock : nat -> datetime)
    (w : World) :
  (execute_recovery now (source_executors (Some owner))
     (analyze_error (init t (Some log)) clock) w).2
  = (now (now (now w).2).2).2.
Proof.
  unfold execute_recovery. destruct (now w) as [started w0].
  pose proof (sorted_of_sorted rank _
                (generated_entries_sorted log clock
                   (_calculate_confidence log)
                   (_get_recovery_strategies log) 0)) as Hsorted.
  rewrite candidates_of_analysis, Hsorted.
  destruct (strategies_nonempty log) as (s0 & rest & Hs).
  rewrite Hs. cbn [generate_from]. rewrite !fmap_cons.
  cbn [run_actions]. unfold _execute_single_action.
  cbn [snd]. destruct (now w0) as [attempted w1].
  rewrite (route_strategy_value _ s0) by done.
  destruct (source_executor_succeeds owner s0
              (action_entry (make_action log clock
                               (_calculate_confidence log) 0 s0)) w1)
    as (r & -> & Hr).
  simpl. rewrite Hr. simpl. by destruct (now w1) as [completed w2].
Qed.

(** X4. With the strategy executors of the source and an error log, the
    recovery of an analysed error always succeeds at the first candidate of
    its category: nothing is recorded as failed, the one executed action is
    the first strategy of the table entry, the message names it, and no
    other candidate is attempted. *)
Theorem source_executors_recover_at_first_candidate
    (owner log : ErrorLog) (t : datetime) (clock : nat -> datetime)
    (w : World) :
  let '(res, calls, _) :=
    execute_recovery now (source_executors (Some owner))
      (analyze_error (init t (Some log)) clock) w in
  exists s0 e,
    head (_get_recovery_strategies log) = Some s0
    /\ recovery_success res = true
    /\ actions_failed res = []
    /\ actions_executed res = [e]
    /\ ex_strategy e = strategy_value s0
    /\ ex_error e = None
    /\ recovery_message res = "Recovery successful: " +:+ strategy_value s0
    /\ ad_strategy <$> calls = [strategy_value s0].
Proof.
  pose proof (first_candidate_succeeds owner log t clock w) as Hrun.
  destruct (execute_recovery _ _ _ w) as [[res calls] w'].
  destruct Hrun as (s0 & e & ? & ? & ? & ? & ? & _ & ? & ? & ?).
  by exists s0, e.
Qed.

(** X5. An executor object made without an error log, as its constructor
    allows, never recovers anything with the executors of the source: for
    every analysis, all the candidates are attempted and recorded as failed
    and none as executed. *)
Theorem executor_without_error_log_never_recovers
    (analysis : Analysis) (w : World) :
  let '(res, calls, _) :=
    execute_recovery now (source_executors None) analysis w in
  recovery_success res = false
  /\ actions_executed res = []
  /\ length (actions_failed res) = length (candidate_actions analysis)
  /\ calls = sorted rank (candidate_actions analysis).
Proof.
  pose proof (execute_recovery_run now (source_executors None) analysis w)
    as Hrun.
  destruct (execute_recovery now (source_executors None) analysis w)
    as [[res calls] w'].
  destruct Hrun as (rest & fails & succ & w1 & Hsplit & Htries & _
                    & Hf & Hx & _ & _ & Hend).
  pose proof (attempts_all_failed now (source_executors None) _ _ _ _
                source_executor_raises Htries) as Hall.
  pose proof (attempts_length _ _ _ _ _ _ Htries) as Hn.
  destruct Hend as [(-> & -> & Hs) | (e & -> & He & _)].
  - rewrite app_nil_r in *. rewrite Hf, Hx.
    split_and!; try done.
    by rewrite Hn, <- Hsplit, sorted_length.
  - apply Forall_app in Hall as [_ Hall].
    apply Forall_cons in Hall as [Hall _].
    unfold failed_attempt in Hall. congruence.
Qed.

(** X6. An action whose strategy is none of the ten routed names fails
    without any executor being called, whatever the executors are: the
    execution carries the message "Unknown strategy: ..." as its result and
    no error, and the world has only seen the clock being read. *)
Theorem unknown_strategy_fails_without_executor
    (executors : Executors World) (a : ActionData) (w : World) :
  ad_strategy a ∉ routed_strategies ->
  _execute_single_action now executors a w
  = ({| ex_strategy := ad_strategy a;
        ex_attempted_at := (now w).1;
        ex_success := false;
        ex_result :=
          Some {| r_success := Some false;
                  r_rest := [("message",
                              PStr ("Unknown strategy: "
                                    +:+ ad_strategy a))] |};
        ex_error := None |},
     (now w).2).
Proof.
  intros Hn. unfold _execute_single_action, route.
  destruct (now w) as [t w0].
  assert (forall name, name ∈ routed_strategies ->
            String.eqb (ad_strategy a) name = false) as Hne.
  { intros name Hin. apply String.eqb_neq. by intros <-. }
  rewrite !Hne by (apply (bool_decide_unpack _); by vm_compute).
  done.
Qed.

(** X7. The message of the report tells the outcome apart: it is "No
    recovery actions available" exactly when there is no candidate, in which
    case the report has no completion time; with candidates that all fail it
    is the empty string; and after a success it names the strategy of the
    one executed action. *)
Theorem recovery_message_tells_outcome
    (executors : Executors World) (analysis : Analysis) (w : World) :
  let '(res, _, _) := execute_recovery now executors analysis w in
  (candidate_actions analysis = [] ->
   recovery_message res = "No recovery actions available"
   /\ recovery_success res = false /\ completed_at res = None)
  /\ (candidate_actions analysis <> [] ->
      is_Some (completed_at res)
      /\ (recovery_success res = false -> recovery_message res = ""))
  /\ (recovery_success res = true ->
      exists e, actions_executed res = [e]
                /\ recovery_message res
                   = "Recovery successful: " +:+ ex_strategy e).
Proof.
  unfold execute_recovery. destruct (now w) as [started w0].
  destruct (candidate_actions analysis) as [|a0 acts0] eqn:Hc.
  { simpl. split_and!; done. }
  destruct (run_actions_spec now executors (sorted rank (a0 :: acts0))
              (initial_result analysis started) [] w0)
    as (tried & rest & fails & succ & res' & w1 & Hrun & _ & Htries
        & _ & _ & Hx & _ & _ & _ & Hend).
  rewrite Hrun. destruct (now w1) as [completed w2]. simpl in Hx. simpl.
  pose proof (attempts_strategies _ _ _ _ _ _ Htries) as Hnames.
  destruct Hend as [(-> & -> & Hs & Hm)
                   | (e & a & tried0 & -> & -> & He & Hs & Hm)].
  - simpl in Hs, Hm. rewrite Hs, Hm.
    split_and!; try done; try (intros _; split; [by eexists | done]).
  - rewrite Hs, Hm, Hx.
    split_and!; try done; try (intros _; split; [by eexists | done]).
    intros _. exists e. split; [done|]. f_equal.
      rewrite !fmap_app in Hnames.
      apply app_inj_2 in Hnames as [_ Hlast]; [|done].
      by injection Hlast as ->.
Qed.

End PipelineFacts.

(** ** The fallback service *)

(** X8. The fallback service of an error is never the failing service
    itself, unless that service is called "api-gateway"; it is "api-gateway"
    or a service that has a fallback of its own; and it is the value that
    the parameters of the fallback strategy carry. *)
Theorem fallback_service_is_another_service (log : ErrorLog) :
  service log <> "api-gateway" ->
  _get_fallback_service log <> service log
  /\ (_get_fallback_service log = "api-gateway"
      \/ is_Some (fallback_map !! _get_fallback_service log))
  /\ dict_get (_get_strategy_parameters log FALLBACK) "fallback_service"
       (PStr "") = PStr (_get_fallback_service log).
Proof.
  intros Hgw.
  assert (_get_fallback_service log <> service log
          /\ (_get_fallback_service log = "api-gateway"
              \/ is_Some (fallback_map !! _get_fallback_service log)))
    as [Hother Hclosed]; [|done].
  unfold _get_fallback_service.
  destruct (fallback_map !! service log) as [target|] eqn:Hl; simpl.
  - apply elem_of_list_to_map_2 in Hl.
    repeat (apply elem_of_cons in Hl as [[= -> ->]|Hl];
            [split; [done | right; by eexists]|]).
    by apply elem_of_nil in Hl.
  - split; [congruence | by left].
Qed.

(** ** [ErrorAlertManager] *)

Section AlertFacts.

Import ErrorAlertManager.

Variable isoformat : datetime -> string.
Variable format_percent : Q -> string.
Variable str_float : Q -> string.
Variable list_of_set : gset string -> list string.
Variable send_mail : Mail -> bool.
Variable settings : Settings.
Variable error_log : option ErrorLog.

Local Abbreviation recipients_of := (_get_recipients list_of_set settings).
Local Abbreviation message_of :=
  (_generate_message isoformat format_percent str_float).
Local Abbreviation alert :=
  (send_recovery_alert isoformat format_percent str_float list_of_set
     send_mail settings error_log).

(** X9. For an error of critical or high severity the recipients are the
    configured recipients together with the escalation recipients, each of
    them once; for every other severity they are the configured recipients
    as they stand, and the escalation recipients are left out. When no
    recipient is configured the default one is used, so that the list is not
    empty. *)
Theorem recipients_by_severity (analysis : Analysis) :
  (forall s, list_of_set s ≡ₚ elements s) ->
  let configured :=
    default ["admin@feedinghearts.com"] (ERROR_ALERT_RECIPIENTS settings) in
  let escalation := default [] (ERROR_ESCALATION_RECIPIENTS settings) in
  (an_severity analysis = Some "critical"
   \/ an_severity analysis = Some "high" ->
   NoDup (recipients_of analysis)
   /\ forall r, r ∈ recipients_of analysis
                <-> r ∈ configured \/ r ∈ escalation)
  /\ (~ (an_severity analysis = Some "critical"
         \/ an_severity analysis = Some "high") ->
      recipients_of analysis = configured)
  /\ (ERROR_ALERT_RECIPIENTS settings = None ->
      recipients_of analysis <> []).
Proof.
  intros Hset configured escalation. unfold _get_recipients.
  fold configured escalation.
  split_and!.
  - intros Hsev. rewrite bool_decide_eq_true_2 by done. split.
    + rewrite Hset. apply NoDup_elements.
    + intros r. rewrite Hset, elem_of_elements, elem_of_list_to_set.
      apply elem_of_app.
  - intros Hsev. by rewrite bool_decide_eq_false_2.
  - intros Hnone. unfold configured. rewrite Hnone. simpl.
    case_bool_decide; [|done].
    intros Hnil.
    assert ("admin@feedinghearts.com" ∈ list_of_set
              (list_to_set (["admin@feedinghearts.com"] ++ escalation)))
      as Hin.
    { rewrite Hset, elem_of_elements, elem_of_list_to_set.
      apply elem_of_app. left. left. }
    simpl in Hin. rewrite Hnil in Hin. by apply elem_of_nil in Hin.
Qed.

Section Reports.

Context {World : Type}.
Variable now : World -> datetime * World.
Variable executors : Executors World.

(** An execution that reports success carries the result of its executor. *)
Lemma single_success_has_result (a : ActionData) (w : World) :
  ex_success (_execute_single_action now executors a w).1 = true ->
  is_Some (ex_result (_execute_single_action now executors a w).1).
Proof.
  unfold _execute_single_action.
  destruct (now w) as [t w0], (route executors a w0) as [[r|msg] w1]; simpl;
    [by eexists | done].
Qed.

Lemma attempts_success_has_result w acts execs w' :
  attempts now executors w acts execs w' ->
  Forall (fun e => ex_success e = true -> is_Some (ex_result e)) execs.
Proof.
  induction 1 as [|w a acts e w1 es w2 He _ IH]; constructor; [|done].
  pose proof (single_success_has_result a w) as Hs. by rewrite He in Hs.
Qed.

(** X10. For the report of a recovery, building the alert message never
    raises. A mail is handed to [send_mail] exactly when there is a
    recipient, and never more than one; it carries the generated subject and
    message, the sender of the settings and the recipients of the severity.
    The alert is reported as sent exactly when that call returns and the
    manager was made with an error log. *)
Theorem alert_for_recovery_report (analysis : Analysis) (w : World) :
  let '(res, _, _) := execute_recovery now executors analysis w in
  let '(sent, outbox) := alert analysis res in
  is_Some (message_of analysis res)
  /\ (outbox = [] <-> recipients_of analysis = [])
  /\ (length outbox <= 1)%nat
  /\ (forall mail, mail ∈ outbox ->
        mail_subject mail = _generate_subject analysis res
        /\ Some (mail_message mail) = message_of analysis res
        /\ mail_from_email mail = DEFAULT_FROM_EMAIL settings
        /\ mail_recipient_list mail = recipients_of analysis)
  /\ (sent = true
      <-> is_Some error_log
          /\ exists mail, outbox = [mail] /\ send_mail mail = true).
Proof.
  pose proof (execute_recovery_run now executors analysis w) as Hrun.
  destruct (execute_recovery now executors analysis w) as [[res calls] w'].
  destruct Hrun as (rest & fails & succ & w1 & _ & Htries & _
                    & _ & Hx & _ & _ & Hend).
  pose proof (attempts_success_has_result _ _ _ _ Htries) as Hres.
  assert (exists m, message_of analysis res = Some m) as [m Hm].
  { unfold _generate_message. rewrite Hx.
    destruct Hend as [(-> & _ & ->) | (e & -> & He & ->)]; simpl;
      [by eexists|].
    apply Forall_app in Hres as [_ Hres].
    apply Forall_cons in Hres as [Hres _].
    destruct (Hres He) as [r Hr]. unfold executed_line. rewrite Hr.
    by eexists. }
  unfold send_recovery_alert. rewrite Hm.
  destruct (recipients_of analysis) as [|r0 rs] eqn:Hr.
  { split_and!.
    - by eexists.
    - done.
    - simpl. lia.
    - intros mail Hin. by apply elem_of_nil in Hin.
    - split; [done|]. by intros (_ & mail & ? & _). }
  set (mail := {| mail_subject := _generate_subject analysis res;
                  mail_message := m;
                  mail_from_email := DEFAULT_FROM_EMAIL settings;
                  mail_recipient_list := r0 :: rs |}).
  assert (forall x, x ∈ [mail] ->
            mail_subject x = _generate_subject analysis res
            /\ Some (mail_message x) = Some m
            /\ mail_from_email x = DEFAULT_FROM_EMAIL settings
            /\ mail_recipient_list x = r0 :: rs) as Hmail.
  { intros x Hin. apply list_elem_of_singleton in Hin as ->. done. }
  destruct (send_mail mail) eqn:Hsend, error_log as [owner|];
    (split_and!; [by eexists | done | simpl; lia | exact Hmail |]).
  - split; [|done]. intros _. split; [by eexists|]. by exists mail.
  - split; [done|]. by intros [[? ?] _].
  - split; [done|]. intros (_ & x & [= <-] & Hx'). congruence.
  - split; [done|]. by intros [[? ?] _].
Qed.

End Reports.

End AlertFacts.

(** ** The webhook channel *)

Section WebhookFacts.

Import WebhookNotificationChannel.

Context {World : Type}.
Variable post : string -> World -> PostOutcome * World.

Lemma post_all_spec (webhook_urls : list string) :
  forall (success : bool) (posts : list (string * PostOutcome)) (w : World),
    let '(ok, posts', _) := post_all post webhook_urls success posts w in
    exists new,
      posts' = posts ++ new
      /\ new.*1 = webhook_urls
      /\ (ok = true
          <-> success = true
              /\ Forall (fun p => delivered p.2 = true) new).
Proof.
  induction webhook_urls as [|url urls IH]; intros success posts w; simpl.
  - exists []. rewrite app_nil_r. split_and!; [done..|].
    split; [by intros -> | by intros [-> _]].
  - destruct (post url w) as [outcome w1].
    specialize (IH (if delivered outcome then success else false)
                  (posts ++ [(url, outcome)]) w1).
    destruct (post_all post urls _ _ w1) as [[ok posts'] w2].
    destruct IH as (new & -> & Hurls & Hok).
    exists ((url, outcome) :: new). rewrite <- app_assoc.
    split_and!; [done | by rewrite fmap_cons, Hurls |].
    rewrite Hok, Forall_cons. simpl.
    destruct (delivered outcome); intuition congruence.
Qed.

(** X11. The webhook channel posts to every configured URL, once and in
    order, also after a failed post: the notification counts as sent exactly
    when at least one URL is configured and every post came back with a
    status code below 400, an exception of a post counting as a failure. *)
Theorem webhook_send_posts_to_every_url
    (webhook_urls : list string) (w : World) :
  let '(ok, posts, _) := send post webhook_urls w in
  posts.*1 = webhook_urls
  /\ (ok = true
      <-> webhook_urls <> []
          /\ Forall (fun p => exists status_code,
                       p.2 = Responded status_code
                       /\ (status_code < 400)%Z) posts).
Proof.
  unfold send. destruct webhook_urls as [|url urls].
  { split; [done|]. split; [done | by intros [? _]]. }
  pose proof (post_all_spec (url :: urls) true [] w) as Hspec.
  destruct (post_all post (url :: urls) true [] w) as [[ok posts] w'].
  destruct Hspec as (new & -> & Hurls & Hok). simpl.
  split; [done|]. rewrite Hok.
  assert (Forall (fun p => delivered p.2 = true) new
          <-> Forall (fun p => exists status_code,
                        p.2 = Responded status_code
                        /\ (status_code < 400)%Z) new) as ->.
  { apply Forall_proper; [|done]. intros [u [code|]]; simpl.
    - rewrite negb_true_iff, Z.leb_gt. split; [by eexists | ].
      by intros (c & [= <-] & ?).
    - split; [done | by intros (c & ? & _)]. }
  split; intros [_ Hall]; by split.
Qed.

End WebhookFacts.

(** ** [notify_developers] *)

Section NotifyFacts.

Import NotificationService.

Variables EmailNotificationChannel SlackNotificationChannel
  SMSNotificationChannel WebhookNotificationChannel : Channel.
Variable errors : gmap string ErrorLog.
Variable developers_on_call : string -> QueryResult DeveloperAssignment.

Local Abbreviation all_channels :=
  (channels EmailNotificationChannel SlackNotificationChannel
     SMSNotificationChannel WebhookNotificationChannel).
Local Abbreviation send_all :=
  (send_loop EmailNotificationChannel SlackNotificationChannel
     SMSNotificationChannel WebhookNotificationChannel).
Local Abbreviation send :=
  (send_notification EmailNotificationChannel SlackNotificationChannel
     SMSNotificationChannel WebhookNotificationChannel errors).
Local Abbreviation notify :=
  (notify_developers EmailNotificationChannel SlackNotificationChannel
     SMSNotificationChannel WebhookNotificationChannel errors
     developers_on_call).




(** X12. [notify_developers] never notifies anybody: no channel is sent on
    and no row is written. When the error is unknown it reports that; when
    the query for the developers on call raises, so does the method; when
    the query finds nobody it returns an empty result; and as soon as it
    finds somebody, the call of [can_receive_notification] without its
    argument raises [TypeError] at the first developer. *)
Theorem notify_developers_never_notifies
    (sends : list (string * string)) (rows : list Kwargs) (eid : string) :
  let '(reply, sends', rows') := notify sends rows eid in
  sends' = sends
  /\ rows' = rows
  /\ match errors !! eid with
     | None => reply = inr ErrorNotFound
     | Some error =>
         match developers_on_call (service error) with
         | QueryRaised msg => reply = inl (DatabaseException msg)
         | Rows [] => reply = inr (Sent ∅)
         | Rows (_ :: _) =>
             reply = inl (MissingArgument "can_receive_notification"
                            "severity")
         end
     end.
Proof.
  unfold notify_developers.
  destruct (errors !! eid) as [error|]; [|done].
  destruct (developers_on_call (service error)) as [[|dev devs]|msg]; done.
Qed.

End NotifyFacts.

(** ** [AIErrorRecoveryMiddleware] *)

Section MiddlewareFacts.

Import ErrorAlertManager AIErrorRecoveryMiddleware.

Context {World : Type}.
Variable now : World -> datetime * World.
Variable uuid4 : World -> string * World.
Variable save : ErrorLog -> World -> option (string * string) * World.
Variable isoformat : datetime -> string.
Variable format_percent : Q -> string.
Variable str_float : Q -> string.
Variable list_of_set : gset string -> list string.
Variable send_mail : Mail -> bool.
Variable settings : Settings.

Local Abbreviation create := (objects_create now uuid4 save).
Local Abbreviation trigger :=
  (_trigger_ai_recovery now isoformat format_percent str_float list_of_set
     send_mail settings).
Local Abbreviation handle_exception :=
  (_handle_exception now uuid4 save isoformat format_percent str_float
     list_of_set send_mail settings).
Local Abbreviation handle_http_error :=
  (_handle_http_error now uuid4 save isoformat format_percent str_float
     list_of_set send_mail settings).

(** The analysis that the middleware builds is an analysis of the error. *)
Lemma analyze_is_analysis (log : ErrorLog) (w : World) :
  exists t clock,
    (analyze now log w).1 = analyze_error (init t (Some log)) clock.
Proof.
  unfold analyze. destruct (now w) as [t0 w1].
  destruct (read_clock now _ w1) as [stamps w2]. by eexists _, _.
Qed.

(** A created error log carries the fields it was created with and the
    default frequency. *)
Lemma objects_create_fields (svc etype msg sev : string)
    (w v : World) (log : ErrorLog) :
  create svc etype msg sev w = (inl log, v) ->
  service log = svc /\ error_type log = etype /\ message log = msg
  /\ severity log = sev /\ frequency log = 1%Z.
Proof.
  unfold objects_create. destruct (uuid4 w) as [eid w1].
  destruct (now w1) as [ts w2].
  destruct (save _ w2) as [[exc|] w3]; [done|].
  by intros [= <- _].
Qed.

Lemma objects_create_raises (svc etype msg sev : string)
    (w v : World) (exc : string * string) :
  create svc etype msg sev w = (inr exc, v) ->
  exists log u, (save log u).1 = Some exc.
Proof.
  unfold objects_create. destruct (uuid4 w) as [eid w1].
  destruct (now w1) as [ts w2].
  destruct (save _ w2) as [[exc'|] w3] eqn:Hsave; [|done].
  intros [= <- _]. eexists _, w2. by rewrite Hsave.
Qed.

(** The mails of an alert carry the generated subject. *)
Lemma alert_outbox (owner : option ErrorLog) (analysis : Analysis)
    (execution : AutoRecoveryExecutor.Result) :
  let '(_, outbox) :=
    send_recovery_alert isoformat format_percent str_float list_of_set
      send_mail settings owner analysis execution in
  (length outbox <= 1)%nat
  /\ forall mail, mail ∈ outbox ->
       mail_subject mail = _generate_subject analysis execution.
Proof.
  unfold send_recovery_alert.
  destruct (_generate_message _ _ _ analysis execution) as [m|];
    [|by split; [simpl; lia | intros ? ?%elem_of_nil]].
  destruct (_get_recipients _ _ analysis) as [|r0 rs];
    [by split; [simpl; lia | intros ? ?%elem_of_nil]|].
  destruct (send_mail _), owner;
    (split; [simpl; lia | by intros ? ->%list_elem_of_singleton]).
Qed.

(** What [_trigger_ai_recovery] returns for an error log. *)
Lemma trigger_result (log : ErrorLog) (w : World) :
  let '(result, outbox, _) := trigger log w in
  attempted result = true
  /\ success result = true
  /\ (exists s0,
        head (_get_recovery_strategies log) = Some s0
        /\ actions result = [(strategy_value s0, true)]
        /\ rec_message result
           = "Recovery successful: " +:+ strategy_value s0)
  /\ (length outbox <= 1)%nat
  /\ forall mail, mail ∈ outbox ->
       mail_subject mail
       = "[" +:+ NotificationService.upper (service log) +:+ "] "
         +:+ error_type log +:+ " - RECOVERED".
Proof.
  unfold _trigger_ai_recovery.
  destruct (analyze_is_analysis log w) as (t & clock & Han).
  destruct (analyze now log w) as [analysis w1]. simpl in Han. subst.
  unfold recover.
  pose proof (first_candidate_succeeds now log log t clock w1) as Hrun.
  destruct (execute_recovery now _ _ w1) as [[execution calls] w2].
  destruct Hrun as (s0 & e & Hhead & Hs & _ & Hx & He & Hes & _ & Hm & _).
  pose proof (alert_outbox (Some log)
                (analyze_error (init t (Some log)) clock) execution)
    as Hout.
  destruct (send_recovery_alert _ _ _ _ _ _ _ _ execution) as [sent outbox].
  destruct Hout as [Hlen Hsubject]. simpl.
  split_and!; try done.
  - exists s0. rewrite Hx, Hm. simpl. by rewrite He, Hes.
  - intros mail Hin. rewrite (Hsubject mail Hin).
    unfold _generate_subject. by rewrite Hs.
Qed.

Lemma severity_lists_disjoint (etype : string) :
  etype ∈ critical_errors -> etype ∈ high_errors -> False.
Proof.
  intros Hc. unfold critical_errors in Hc.
  repeat (apply elem_of_cons in Hc as [->|Hc];
          [apply (bool_decide_unpack _); by vm_compute|]).
  by apply elem_of_nil in Hc.
Qed.

Lemma determine_severity_cases (etype : string) :
  (_determine_severity etype = "critical" <-> etype ∈ critical_errors)
  /\ (_determine_severity etype = "high" <-> etype ∈ high_errors).
Proof.
  unfold _determine_severity.
  case_bool_decide as Hc.
  { split; [done|]. split; [done|].
    intros Hh. by destruct (severity_lists_disjoint etype). }
  case_bool_decide as Hh; [by split|].
  case_bool_decide; by split.
Qed.

(** X13. For an exception of the view, when the error log can be created,
    the JSON response of the middleware has status 500 exactly for the
    critical error types, 503 exactly for the high ones and 400 otherwise;
    its recovery part always says that a recovery was attempted and
    succeeded, and lists one action, the first strategy of the category of
    the error; at most one alert mail is handed out. When the database
    raises, that exception goes on and no mail is handed out. *)
Theorem handle_exception_reports_recovery
    (META : gmap string string) (etype msg : string) (w : World) :
  let '(reply, outbox, _) := handle_exception META etype msg w in
  match reply with
  | inl response =>
      (status response = 500%Z <-> etype ∈ critical_errors)
      /\ (status response = 503%Z <-> etype ∈ high_errors)
      /\ (status response = 400%Z
          <-> (etype ∉ critical_errors) /\ (etype ∉ high_errors))
      /\ err_severity response = _determine_severity etype
      /\ attempted (recovery response) = true
      /\ success (recovery response) = true
      /\ (exists s0,
            head (default [RETRY; FALLBACK] (ERROR_RECOVERY_MAP !! etype))
            = Some s0
            /\ actions (recovery response) = [(strategy_value s0, true)])
      /\ (length outbox <= 1)%nat
  | inr exc => outbox = [] /\ exists log u, (save log u).1 = Some exc
  end.
Proof.
  unfold _handle_exception, _create_error_log.
  destruct (create _ etype msg _ w) as [[log|exc] w1] eqn:Hcreate.
  - apply objects_create_fields in Hcreate as (_ & Htype & _ & _ & _).
    pose proof (trigger_result log w1) as Htrigger.
    destruct (trigger log w1) as [[result outbox] w2].
    destruct Htrigger as (Hatt & Hsucc & (s0 & Hhead & Hact & _) & Hlen & _).
    simpl. unfold _get_recovery_strategies in Hhead. rewrite Htype in Hhead.
    assert (forall s, (_get_status_code etype s = 500 <-> s = "critical")
                      /\ (_get_status_code etype s = 503 <-> s = "high")
                      /\ (_get_status_code etype s = 400
                          <-> s <> "critical" /\ s <> "high"))%Z as Hcode.
    { intros s. unfold _get_status_code.
      destruct (String.eqb_spec s "critical") as [->|Hc];
        [split_and!; split; try done; by intros [? _]|].
      destruct (String.eqb_spec s "high") as [->|Hh];
        [split_and!; split; try done; by intros [_ ?]|].
      destruct (String.eqb s "medium"); split_and!; split; done. }
    destruct (Hcode (_determine_severity etype)) as (H500 & H503 & H400).
    destruct (determine_severity_cases etype) as [Hcrit Hhigh].
    rewrite H500, H503, H400, Hcrit, Hhigh.
    split_and!; try done. by exists s0.
  - split; [done|]. by eapply objects_create_raises.
Qed.
(** No category of the recovery table starts with "HTTP". *)
Lemma http_error_type_is_unknown (log : ErrorLog) (code : string) :
  error_type log = "HTTP" +:+ code ->
  _get_recovery_strategies log = [RETRY; FALLBACK].
Proof.
  intros Htype. unfold _get_recovery_strategies.
  rewrite table_lookup_None; [done|].
  rewrite Htype. intros Hin.
  repeat (apply elem_of_cons in Hin as [Hin|Hin]; [discriminate|]).
  by apply elem_of_nil in Hin.
Qed.

(** The world after some readings of the clock. *)
Lemma read_clock_step (n : nat) (w : World) :
  (read_clock now (S n) w).2 = (read_clock now n (now w).2).2.
Proof.
  simpl. destruct (now w) as [t w1]. simpl.
  by destruct (read_clock now n w1).
Qed.

Lemma read_clock_app (n m : nat) (w : World) :
  (read_clock now m (read_clock now n w).2).2
  = (read_clock now (n + m) w).2.
Proof.
  revert w. induction n as [|n IH]; intros w; [done|].
  rewrite Nat.add_succ_l, !read_clock_step. apply IH.
Qed.

(** When the database accepts the row, the created error log is the one
    with the given fields, the identifier and the time stamp of the moment,
    and it has been saved. *)
Lemma objects_create_saved (svc etype msg sev : string) (w : World) :
  (forall log u, (save log u).1 = None) ->
  let log :=
    {| error_id := (uuid4 w).1; service := svc; severity := sev;
       error_type := etype; message := msg;
       timestamp := (now (uuid4 w).2).1; frequency := 1 |} in
  create svc etype msg sev w = (inl log, (save log (now (uuid4 w).2).2).2).
Proof.
  intros Hsave. unfold objects_create. destruct (uuid4 w) as [eid w1].
  simpl. destruct (now w1) as [ts w2]. simpl.
  match goal with |- context [save ?l w2] =>
    specialize (Hsave l w2); destruct (save l w2) as [[exc|] w3] end;
    [done | done].
Qed.

(** The run of [_trigger_ai_recovery]: the analysis of the error, the
    execution that recovers with the first strategy, the mails of the alert
    for the two, and the readings of the clock. *)
Lemma trigger_run (log : ErrorLog) (w : World) :
  let '(_, outbox, w') := trigger log w in
  exists t clock execution e s0,
    let analysis := analyze_error (init t (Some log)) clock in
    head (_get_recovery_strategies log) = Some s0
    /\ recovery_success execution = true
    /\ actions_failed execution = []
    /\ actions_executed execution = [e]
    /\ ex_strategy e = strategy_value s0
    /\ ex_success e = true
    /\ outbox
       = (send_recovery_alert isoformat format_percent str_float list_of_set
            send_mail settings (Some log) analysis execution).2
    /\ w' = (read_clock now
               (S (length (_get_recovery_strategies log)) + 3) w).2.
Proof.
  unfold _trigger_ai_recovery.
  assert ((analyze now log w).2
          = (read_clock now (S (length (_get_recovery_strategies log))) w).2)
    as Hworld.
  { unfold analyze. cbn [read_clock]. destruct (now w) as [t0 w1].
    by destruct (read_clock now _ w1). }
  destruct (analyze_is_analysis log w) as (t & clock & Han).
  destruct (analyze now log w) as [analysis w1]. simpl in Han.
  cbn [snd] in Hworld. subst analysis. unfold recover.
  pose proof (first_candidate_succeeds now log log t clock w1) as Hrun.
  pose proof (first_candidate_world now log log t clock w1) as Hw.
  destruct (execute_recovery now _ _ w1) as [[execution calls] w2].
  cbn [snd] in Hw.
  destruct Hrun as (s0 & e & Hhead & Hs & Hf & Hx & He & Hes & _).
  destruct (send_recovery_alert _ _ _ _ _ _ _ _ execution)
    as [sent outbox] eqn:Halert.
  exists t, clock, execution, e, s0. rewrite Halert.
  split_and!; try done.
  rewrite <- read_clock_app, <- Hworld, Hw.
  rewrite !read_clock_step. done.
Qed.

(** X14. When the database accepts the error log, an error response of the
    view is handed back as it is. Below status 400 the middleware does
    nothing. From 400 on it logs the error: the row that is saved carries
    the service of the request, the type "HTTP<status>", the message and the
    severity "critical" from 500 on and "medium" below. From 400 to 499
    nothing else happens. From 500 on the recovery runs on that error log:
    its candidates are retry and fallback, since no category of the table
    starts with "HTTP"; the retry is executed and succeeds; the clock is read
    six times; and the alert for this analysis and this execution is handed
    to the mail system, announcing the error as recovered. *)
Theorem http_error_response_passes_through
    (META : gmap string string) (status_code : Z) (w : World) :
  (forall log u, (save log u).1 = None) ->
  let '(reply, outbox, w') :=
    call now uuid4 save isoformat format_percent str_float list_of_set
      send_mail settings META (Responds status_code) w in
  let log :=
    {| error_id := (uuid4 w).1;
       service := _get_service_from_request META;
       severity := if (500 <=? status_code)%Z then "critical" else "medium";
       error_type := "HTTP" +:+ str_Z status_code;
       message := "HTTP " +:+ str_Z status_code +:+ " Error";
       timestamp := (now (uuid4 w).2).1;
       frequency := 1 |} in
  let logged := (save log (now (uuid4 w).2).2).2 in
  reply = inl (FromView status_code)
  /\ ((status_code < 400)%Z -> outbox = [] /\ w' = w)
  /\ ((400 <= status_code < 500)%Z -> outbox = [] /\ w' = logged)
  /\ ((500 <= status_code)%Z ->
      exists t clock execution e,
        let analysis := analyze_error (init t (Some log)) clock in
        an_predicted_recovery_strategies analysis
        = Some ["retry"; "fallback"]
        /\ recovery_success execution = true
        /\ actions_failed execution = []
        /\ actions_executed execution = [e]
        /\ ex_strategy e = "retry"
        /\ ex_success e = true
        /\ outbox
           = (send_recovery_alert isoformat format_percent str_float
                list_of_set send_mail settings (Some log) analysis
                execution).2
        /\ w' = (read_clock now 6 logged).2)
  /\ (length outbox <= 1)%nat
  /\ (forall mail, mail ∈ outbox ->
        mail_subject mail
        = "[" +:+ NotificationService.upper (_get_service_from_request META)
          +:+ "] HTTP" +:+ str_Z status_code +:+ " - RECOVERED").
Proof.
  intros Hsave. unfold call.
  destruct (Z.leb_spec 400 status_code) as [H400|H400].
  2: { split_and!; try done; try lia; [simpl; lia|].
       intros mail Hin. by apply elem_of_nil in Hin. }
  unfold _handle_http_error, _create_error_log.
  replace (400 <=? status_code)%Z with true
    by (symmetry; apply Z.leb_le; lia).
  rewrite (objects_create_saved _ _ _ _ w Hsave).
  destruct (Z.leb_spec 500 status_code) as [H500|H500].
  - set (log := {| error_id := (uuid4 w).1;
                   service := _get_service_from_request META;
                   severity := "critical";
                   error_type := "HTTP" +:+ str_Z status_code;
                   message := "HTTP " +:+ str_Z status_code +:+ " Error";
                   timestamp := (now (uuid4 w).2).1;
                   frequency := 1 |}).
    set (logged := (save log (now (uuid4 w).2).2).2).
    pose proof (trigger_result log logged) as Htrigger.
    pose proof (trigger_run log logged) as Hrun.
    destruct (trigger log logged) as [[result outbox] w2].
    destruct Htrigger as (_ & _ & _ & Hlen & Hsubject).
    destruct Hrun as (t & clock & execution & e & s0 & Hhead & Hs & Hf & Hx
                      & He & Hes & Hout & Hw).
    assert (_get_recovery_strategies log = [RETRY; FALLBACK]) as Hdefault
      by (by apply (http_error_type_is_unknown log (str_Z status_code))).
    rewrite Hdefault in Hhead, Hw. injection Hhead as <-.
    split_and!; try done; try lia.
    intros _. exists t, clock, execution, e. simpl.
    rewrite Hdefault. done.
  - split_and!; try done; try (intros; lia); try (simpl; lia).
    intros mail Hin. by apply elem_of_nil in Hin.
Qed.

(** X15. The context manager suppresses the exception of its block, of
    whatever type, exactly when the error log can be created: the recovery
    that follows always reports success. Without an exception, and when the
    database raises, it suppresses nothing. *)
Theorem context_manager_suppresses_every_exception
    (svc : string) (exc : option (string * string)) (w : World) :
  (__exit__ now uuid4 save svc exc w).1 = true
  <-> exists etype msg log v,
        exc = Some (etype, msg)
        /\ create svc etype msg "high" w = (inl log, v).
Proof.
  unfold __exit__. destruct exc as [[etype msg]|].
  2: { split; [done | by intros (? & ? & ? & ? & ? & _)]. }
  destruct (create svc etype msg "high" w) as [[log|raised] w1] eqn:Hcreate.
  2: { split; [done|]. intros (? & ? & ? & ? & [= <- <-] & Hc).
       congruence. }
  destruct (analyze_is_analysis log w1) as (t & clock & Han).
  destruct (analyze now log w1) as [analysis w2]. simpl in Han. subst.
  unfold recover.
  pose proof (first_candidate_succeeds now log log t clock w2) as Hrun.
  destruct (execute_recovery now _ _ w2) as [[execution calls] w3].
  destruct Hrun as (s0 & e & _ & Hs & _). simpl.
  split; [|done]. intros _. by exists etype, msg, log, w1.
Qed.

(** X16. An error log created by the middleware has the default frequency
    1, so that the pattern of repeated errors is never detected for it: its
    analysis matches the pattern of a critical error when its severity is
    "critical", and otherwise no pattern, with the recommended priority
    MEDIUM. *)
Theorem created_errors_never_match_repeated_errors
    (svc etype msg sev : string) (w v : World) (log : ErrorLog) :
  create svc etype msg sev w = (inl log, v) ->
  let analysis := (analyze now log v).1 in
  frequency log = 1%Z
  /\ an_pattern_match analysis
     = Some (if String.eqb sev "critical" then Some "critical_error"
             else None)
  /\ an_recommended_priority analysis
     = Some (if String.eqb sev "critical" then "CRITICAL" else "MEDIUM").
Proof.
  intros Hcreate analysis.
  apply objects_create_fields in Hcreate as (_ & _ & _ & Hsev & Hfreq).
  destruct (analyze_is_analysis log v) as (t & clock & Han).
  unfold analysis. rewrite Han. simpl. unfold _detect_pattern.
  rewrite Hsev, Hfreq.
  by destruct (String.eqb sev "critical").
Qed.

(** X17. When the database refuses every error log, the middleware does not
    hand back the error response of the view: the exception raised while the
    response is logged is handled like an exception of the view, its own
    logging fails in turn, and the exception of the database leaves
    [__call__]. The same happens for an exception of the view. Only
    responses below status 400 pass, and no alert mail is handed out. *)
Theorem database_failure_replaces_the_response
    (META : gmap string string) (view : ViewOutcome) (w : World) :
  (forall log u, is_Some (save log u).1) ->
  let '(reply, outbox, _) :=
    call now uuid4 save isoformat format_percent str_float list_of_set
      send_mail settings META view w in
  outbox = []
  /\ match view with
     | Responds status_code =>
         if (status_code <? 400)%Z then reply = inl (FromView status_code)
         else exists exc, reply = inr exc
     | Throws _ _ => exists exc, reply = inr exc
     end.
Proof.
  intros Hdown.
  assert (forall svc etype msg sev v,
            exists exc v', create svc etype msg sev v = (inr exc, v'))
    as Hcreate.
  { intros svc etype msg sev v. unfold objects_create.
    destruct (uuid4 v) as [eid v1]. destruct (now v1) as [ts v2].
    pose proof (Hdown {| error_id := eid; service := svc; severity := sev;
                         error_type := etype; message := msg;
                         timestamp := ts; frequency := 1 |} v2) as Hs.
    destruct (save _ v2) as [[exc|] v3]; [by eexists _, _|].
    by destruct Hs. }
  assert (forall etype msg v,
            exists exc v', handle_exception META etype msg v
                           = (inr exc, [], v')) as Hexc.
  { intros etype msg v. unfold _handle_exception, _create_error_log.
    destruct (Hcreate (_get_service_from_request META) etype msg
                (_determine_severity etype) v) as (exc & v' & ->).
    by eexists _, _. }
  unfold call. destruct view as [status_code|etype msg].
  - destruct (Z.ltb_spec status_code 400) as [Hlt|Hge].
    + destruct (Z.leb_spec 400 status_code); [lia | done].
    + destruct (Z.leb_spec 400 status_code); [|lia].
      unfold _handle_http_error, _create_error_log.
      destruct (Hcreate (_get_service_from_request META)
                  ("HTTP" +:+ ErrorAlertManager.str_Z status_code)
                  ("HTTP " +:+ ErrorAlertManager.str_Z status_code
                   +:+ " Error")
                  (if (500 <=? status_code)%Z then "critical"
                   else if (400 <=? status_code)%Z then "medium" else "low")
                  w) as ([etype msg] & v' & ->).
      destruct (Hexc etype msg v') as (exc & v'' & ->).
      split; [done | by eexists].
  - destruct (Hexc etype msg w) as (exc & v' & ->).
    split; [done | by eexists].
Qed.

End MiddlewareFacts.

(** ** The further properties on the scenarios *)

Section PipelineScenarioFacts.

Import Scenarios PipelineScenarios StrategyDispatch.
Import ErrorAlertManager AIErrorRecoveryMiddleware.

Lemma analysis_scores_in_range_witness :
  match candidate_actions (analysis_of connection_error) with
  | d :: _ =>
      d ∈ candidate_actions (analysis_of connection_error)
      /\ (0.4 <= ad_confidence d)%Q /\ (ad_success_rate d <= 0.95)%Q
  | [] => False
  end.
Proof.
  destruct (candidate_actions (analysis_of connection_error))
    as [|d rest] eqn:Hc; [vm_compute in Hc; discriminate|].
  assert (d ∈ candidate_actions (analysis_of connection_error)) as Hd
    by (rewrite Hc; left).
  rewrite <- Hc. split; [exact Hd|].
  destruct (analysis_scores_in_range connection_error 1700000400%Z
              (fun _ => 1700000400%Z) d Hd)
    as (_ & _ & Hlo & _ & _ & Hhi).
  split; [exact Hlo | exact Hhi].
Defined.

Lemma strategies_reach_their_executor_witness :
  match candidate_actions (analysis_of connection_error) with
  | d :: _ =>
      d ∈ candidate_actions (analysis_of connection_error)
      /\ ad_strategy d ∈ routed_strategies
  | [] => False
  end.
Proof.
  destruct (candidate_actions (analysis_of connection_error))
    as [|d rest] eqn:Hc; [vm_compute in Hc; discriminate|].
  assert (d ∈ candidate_actions (analysis_of connection_error)) as Hd
    by (rewrite Hc; left).
  rewrite <- Hc. split; [exact Hd|].
  destruct (strategies_reach_their_executor retry_fails connection_error
              1700000400%Z (fun _ => 1700000400%Z) d 0%nat Hd)
    as (s & _ & _ & Hin & _).
  exact Hin.
Defined.

Lemma unknown_strategy_fails_without_executor_witness :
  (ad_strategy unrouted_action ∉ routed_strategies)
  /\ ex_success
       (_execute_single_action tick retry_fails unrouted_action 0%nat).1
     = false.
Proof.
  assert (ad_strategy unrouted_action ∉ routed_strategies) as Hn
    by (apply (bool_decide_unpack _); vm_compute; exact I).
  split; [exact Hn|].
  rewrite (unknown_strategy_fails_without_executor tick retry_fails
             unrouted_action 0%nat Hn).
  reflexivity.
Defined.

Lemma recovery_message_tells_outcome_witness :
  candidate_actions empty_analysis = []
  /\ recovery_message
       (execute_recovery tick retry_fails empty_analysis 0%nat).1.1
     = "No recovery actions available".
Proof.
  split; [reflexivity|].
  pose proof (recovery_message_tells_outcome tick retry_fails
                empty_analysis 0%nat) as H.
  destruct (execute_recovery tick retry_fails empty_analysis 0%nat)
    as [[res calls] w'].
  destruct H as (Hempty & _). destruct (Hempty eq_refl) as [Hm _].
  exact Hm.
Defined.

Lemma fallback_service_is_another_service_witness :
  service connection_error <> "api-gateway"
  /\ _get_fallback_service connection_error <> service connection_error.
Proof.
  assert (service connection_error <> "api-gateway") as Hgw
    by discriminate.
  split; [exact Hgw|].
  destruct (fallback_service_is_another_service connection_error Hgw)
    as (Hother & _).
  exact Hother.
Defined.

Lemma recipients_by_severity_witness :
  (forall s : gset string, elements s ≡ₚ elements s)
  /\ an_severity (analysis_of critical_error) = Some "critical"
  /\ NoDup (_get_recipients elements plain_settings
              (analysis_of critical_error)).
Proof.
  assert (forall s : gset string, elements s ≡ₚ elements s) as Hset
    by (intros s; reflexivity).
  split; [exact Hset|]. split; [reflexivity|].
  destruct (recipients_by_severity elements plain_settings
              (analysis_of critical_error) Hset) as (Hcrit & _).
  destruct (Hcrit (or_introl eq_refl)) as [Hnodup _].
  exact Hnodup.
Defined.

Lemma alert_for_recovery_report_witness :
  let '(res, _, _) :=
    execute_recovery tick retry_fails (analysis_of connection_error) 0%nat in
  is_Some (_generate_message no_rendering no_rendering no_rendering
             (analysis_of connection_error) res).
Proof.
  pose proof (alert_for_recovery_report no_rendering no_rendering
                no_rendering elements mail_goes_out plain_settings
                (Some connection_error) tick retry_fails
                (analysis_of connection_error) 0%nat) as H.
  destruct (execute_recovery tick retry_fails (analysis_of connection_error)
              0%nat) as [[res calls] w'].
  destruct (send_recovery_alert _ _ _ _ _ _ _ _ res) as [sent outbox].
  destruct H as [Hm _]. exact Hm.
Defined.

Lemma notify_developers_never_notifies_witness :
  let '(reply, sends, rows) :=
    NotificationService.notify_developers delivers delivers delivers
      delivers error_table developers_found [] [] (error_id critical_error) in
  sends = [] /\ rows = []
  /\ reply = inl (NotificationService.MissingArgument
                    "can_receive_notification" "severity").
Proof.
  pose proof (notify_developers_never_notifies delivers delivers delivers
                delivers error_table developers_found [] []
                (error_id critical_error)) as H.
  destruct (NotificationService.notify_developers delivers delivers delivers
              delivers error_table developers_found [] []
              (error_id critical_error)) as [[reply sends] rows].
  destruct H as (Hsends & Hrows & Hreply).
  split; [exact Hsends|]. split; [exact Hrows | exact Hreply].
Defined.


Lemma http_error_response_passes_through_witness :
  (forall (log : ErrorLog) (u : nat), (database_up log u).1 = None)
  /\ (call tick fixed_uuid database_up no_rendering no_rendering
        no_rendering elements mail_goes_out plain_settings ∅
        (Responds 503) 0%nat).1.1
     = inl (FromView 503).
Proof.
  assert (forall (log : ErrorLog) (u : nat), (database_up log u).1 = None)
    as Hup by (intros log u; reflexivity).
  split; [exact Hup|].
  pose proof (http_error_response_passes_through tick fixed_uuid
                database_up no_rendering no_rendering no_rendering elements
                mail_goes_out plain_settings ∅ 503 0%nat Hup) as H.
  destruct (call tick fixed_uuid database_up no_rendering no_rendering
              no_rendering elements mail_goes_out plain_settings ∅
              (Responds 503) 0%nat) as [[reply outbox] w'].
  destruct H as (Hreply & _). exact Hreply.
Defined.

Lemma created_errors_never_match_repeated_errors_witness :
  objects_create tick fixed_uuid database_up "django" "ValueError"
    "invalid literal" "medium" 0%nat = (inl created_log, 1%nat)
  /\ an_recommended_priority (analyze tick created_log 1%nat).1
     = Some "MEDIUM".
Proof.
  assert (objects_create tick fixed_uuid database_up "django" "ValueError"
            "invalid literal" "medium" 0%nat = (inl created_log, 1%nat))
    as Hcreate by reflexivity.
  split; [exact Hcreate|].
  destruct (created_errors_never_match_repeated_errors tick fixed_uuid
              database_up "django" "ValueError" "invalid literal" "medium"
              0%nat 1%nat created_log Hcreate) as (_ & _ & Hprio).
  exact Hprio.
Defined.

Lemma database_failure_replaces_the_response_witness :
  (forall (log : ErrorLog) (u : nat), is_Some (database_down log u).1)
  /\ (call tick fixed_uuid database_down no_rendering no_rendering
        no_rendering elements mail_goes_out plain_settings ∅
        (Responds 502) 0%nat).1.2
     = [].
Proof.
  assert (forall (log : ErrorLog) (u : nat),
            is_Some (database_down log u).1) as Hdown
    by (intros log u; eexists; reflexivity).
  split; [exact Hdown|].
  pose proof (database_failure_replaces_the_response tick fixed_uuid
                database_down no_rendering no_rendering no_rendering
                elements mail_goes_out plain_settings ∅ (Responds 502)
                0%nat Hdown) as H.
  destruct (call tick fixed_uuid database_down no_rendering no_rendering
              no_rendering elements mail_goes_out plain_settings ∅
              (Responds 502) 0%nat) as [[reply outbox] w'].
  destruct H as [Hout _]. exact Hout.
Defined.

(** A response 503 of the view for a request without service header: the
    response passes, the error is logged and recovered by a retry, and the
    alert mail says so. *)
Example server_error_response :
  let '(reply, outbox, _) :=
    call tick fixed_uuid database_up no_rendering no_rendering no_rendering
      elements mail_goes_out plain_settings ∅ (Responds 503) 0%nat in
  reply = inl (FromView 503)
  /\ mail_subject <$> outbox = ["[DJANGO] HTTP503 - RECOVERED"]
  /\ mail_recipient_list <$> outbox
     = [elements (list_to_set ["admin@feedinghearts.com";
                               "oncall@feedinghearts.com"] : gset string)].
Proof. vm_compute. done. Qed.

(** A database error of the view, with the database of the error logs up:
    the response announces the recovery by the first strategy of the
    category, and the alert mail says the same. *)
Example database_error_response :
  let '(reply, outbox, _) :=
    call tick fixed_uuid database_up no_rendering no_rendering no_rendering
      elements mail_goes_out plain_settings ∅
      (Throws "DatabaseError" "connection already closed") 0%nat in
  (exists response,
     reply = inl (Json response)
     /\ status response = 500%Z
     /\ actions (recovery response) = [("pool_increase", true)])
  /\ mail_subject <$> outbox = ["[DJANGO] DatabaseError - RECOVERED"].
Proof. vm_compute. split; [by eexists | done]. Qed.

(** Three webhook URLs of which the second answers 502: all three are
    posted to and the notification counts as failed. *)
Example webhook_with_a_failing_endpoint :
  let '(ok, posts, _) :=
    WebhookNotificationChannel.send endpoint
      ["https://hooks.feedinghearts.com/ok";
       "https://hooks.feedinghearts.com/down";
       "https://hooks.feedinghearts.com/ok"] 0%nat in
  ok = false /\ length posts = 3%nat.
Proof. vm_compute. done. Qed.

End PipelineScenarioFacts.
